(** * xpthread: the emulated (Win32) backend of [src/src/xpthread.c]

    A shallow embedding of the code that is compiled under [#ifdef _WIN32],
    followed by the properties of that code.

    Conventions.
    - Machine integers are values of [Z]; every conversion to a fixed-width
      C type is written out ([dword], [to_long], [to_int64], [to_uint64]).
      The widths are those of the Windows ABI the backend is compiled for:
      [DWORD], [unsigned] and [long] have 32 bits, [time_t], [int64_t] and
      [uint64_t] have 64.
    - Pointers are addresses in [Z]; [0] is [NULL].  An out-parameter
      [T *p] of a call is an [option T]: [None] is a null pointer,
      [Some x] a valid cell holding [x]; the call returns the cell as it
      leaves it.
    - A call that runs inside a thread is a [thread_m]: it is given the
      identity of the calling thread and the process state, and either
      returns, ends the calling thread ([_endthreadex]), blocks, or faults. *)

From stdpp Require Import gmap.
From Stdlib Require Import ZArith Lia List.
Import ListNotations.

Local Open Scope Z_scope.

(** ** Fixed-width integers *)

Definition dword (x : Z) : Z := x mod 2 ^ 32.
Definition to_uint64 (x : Z) : Z := x mod 2 ^ 64.
Definition to_long (x : Z) : Z := (x + 2 ^ 31) mod 2 ^ 32 - 2 ^ 31.
Definition to_int64 (x : Z) : Z := (x + 2 ^ 63) mod 2 ^ 64 - 2 ^ 63.

(** ** Status codes

    The values of [<errno.h>] in the Windows C runtime; the code only
    names them. *)

Definition EAGAIN : Z := 11.
Definition ENOMEM : Z := 12.
Definition EBUSY : Z := 16.
Definition EINVAL : Z := 22.
Definition ENOSYS : Z := 40.
Definition ENOTSUP : Z := 129.
Definition ETIMEDOUT : Z := 138.

(** [INFINITE] of [<windows.h>] is the largest [DWORD]. *)
Definition INFINITE : Z := 4294967295.

Definition XPTHREAD_CANCEL_ENABLE : Z := 1.
Definition XPTHREAD_CANCEL_DISABLE : Z := 0.

(** ** Time source *)

Module Clock.

Record timespec := { tv_sec : Z; tv_nsec : Z }.

(** What [GetSystemTimeAsFileTime] writes: a count of 100 ns ticks
    since 1601-01-01, split in two [DWORD]s. *)
Record FILETIME := { dwLowDateTime : Z; dwHighDateTime : Z }.

(** [ULARGE_INTEGER]: the two halves read back as [QuadPart]. *)
Definition QuadPart (LowPart HighPart : Z) : Z :=
  Z.lor (Z.shiftl (dword HighPart) 32) (dword LowPart).

Definition xpthread_get_realtime (ft : FILETIME) : timespec :=
  let uli := QuadPart (dwLowDateTime ft) (dwHighDateTime ft) in
  let t := to_uint64 (uli - 116444736000000000) in
  {| tv_sec := to_int64 (t / 10000000);
     tv_nsec := to_long (to_uint64 ((t mod 10000000) * 100)) |}.

(** A [timespec] in normal form. *)
Definition normalized (ts : timespec) : Prop :=
  0 <= tv_nsec ts < 1000000000.

(** Order of two points in time given in normal form. *)
Definition at_or_before (a b : timespec) : Prop :=
  tv_sec a < tv_sec b \/ (tv_sec a = tv_sec b /\ tv_nsec a <= tv_nsec b).

(** The [FILETIME] of a Unix time given in seconds and 100 ns ticks. *)
Definition filetime_of_unix (sec ticks : Z) : FILETIME :=
  let q := 116444736000000000 + sec * 10000000 + ticks in
  {| dwLowDateTime := q mod 2 ^ 32; dwHighDateTime := q / 2 ^ 32 |}.

End Clock.

(** ** Mutex primitive *)

Module Mutex.
Import Clock.

(** The part of a [CRITICAL_SECTION] that decides who may enter:
    the owning thread, if any, and how often it has entered. *)
Record CRITICAL_SECTION := {
  OwningThread : option Z;
  RecursionCount : Z
}.

Definition unlocked : CRITICAL_SECTION :=
  {| OwningThread := None; RecursionCount := 0 |}.

Definition held_by (t : Z) : CRITICAL_SECTION :=
  {| OwningThread := Some t; RecursionCount := 1 |}.

Definition TryEnterCriticalSection (self : Z) (cs : CRITICAL_SECTION)
  : bool * CRITICAL_SECTION :=
  match OwningThread cs with
  | None => (true, {| OwningThread := Some self; RecursionCount := 1 |})
  | Some o =>
      if o =? self
      then (true, {| OwningThread := Some self;
                     RecursionCount := RecursionCount cs + 1 |})
      else (false, cs)
  end.

(** [EnterCriticalSection] waits while another thread owns the section:
    [None] is a caller that is left waiting. *)
Definition EnterCriticalSection (self : Z) (cs : CRITICAL_SECTION)
  : option CRITICAL_SECTION :=
  let (entered, cs') := TryEnterCriticalSection self cs in
  if entered then Some cs' else None.

Definition LeaveCriticalSection (cs : CRITICAL_SECTION) : CRITICAL_SECTION :=
  if RecursionCount cs - 1 <=? 0
  then unlocked
  else {| OwningThread := OwningThread cs;
          RecursionCount := RecursionCount cs - 1 |}.

(** [spin_ok] is the result of [InitializeCriticalSectionAndSpinCount].
    Built for [_WIN32_WINNT < 0x0403] the function calls
    [InitializeCriticalSection] instead and always returns [0]: the case
    [spin_ok = true]. *)
Definition xpthread_mutex_init (spin_ok : bool) (mutex : CRITICAL_SECTION)
  : Z * CRITICAL_SECTION :=
  if negb spin_ok then (ENOMEM, mutex) else (0, unlocked).

Definition xpthread_mutex_destroy (mutex : CRITICAL_SECTION)
  : Z * CRITICAL_SECTION :=
  (0, unlocked).

Definition xpthread_mutex_lock (self : Z) (mutex : CRITICAL_SECTION)
  : option (Z * CRITICAL_SECTION) :=
  match EnterCriticalSection self mutex with
  | Some mutex' => Some (0, mutex')
  | None => None
  end.

Definition xpthread_mutex_unlock (mutex : CRITICAL_SECTION)
  : Z * CRITICAL_SECTION :=
  (0, LeaveCriticalSection mutex).

Definition xpthread_mutex_trylock (self : Z) (mutex : CRITICAL_SECTION)
  : Z * CRITICAL_SECTION :=
  let (entered, mutex') := TryEnterCriticalSection self mutex in
  (if entered then 0 else EBUSY, mutex').

(** *** Timed lock *)

(** What a call of [xpthread_mutex_timedlock] leaves behind: the status
    it returns, the critical section, the number of
    [TryEnterCriticalSection] calls it made and the final value of
    [elapsed], the milliseconds it asked [Sleep] for. *)
Record timedlock_result := {
  tl_status : Z;
  tl_mutex : CRITICAL_SECTION;
  tl_tries : Z;
  tl_elapsed : Z
}.

(** While the caller sleeps the other threads run: [others k cs] is the
    critical section they leave when the sleep that starts at
    [elapsed = k] is over. *)
Definition environment := Z -> CRITICAL_SECTION -> CRITICAL_SECTION.

Definition idle : environment := fun _ cs => cs.

Definition Sleep (others : environment) (elapsed : Z) (cs : CRITICAL_SECTION)
  : CRITICAL_SECTION :=
  others elapsed cs.

Definition interval : Z := 1.

(** The loop [while (elapsed < timeout_ms)] and the check after it.
    [fuel] bounds the number of iterations; [None] is fuel that ran out
    before the loop did. *)
Fixpoint poll (fuel : nat) (self : Z) (others : environment)
    (timeout_ms elapsed tries : Z) (mutex : CRITICAL_SECTION)
  : option timedlock_result :=
  if elapsed <? timeout_ms then
    match fuel with
    | O => None
    | S fuel' =>
        let (entered, mutex1) := TryEnterCriticalSection self mutex in
        if entered
        then Some {| tl_status := 0; tl_mutex := mutex1;
                     tl_tries := tries + 1; tl_elapsed := elapsed |}
        else poll fuel' self others timeout_ms
                  (dword (elapsed + interval)) (tries + 1)
                  (Sleep others elapsed mutex1)
    end
  else
    let (entered, mutex1) := TryEnterCriticalSection self mutex in
    Some {| tl_status := if entered then 0 else ETIMEDOUT;
            tl_mutex := mutex1;
            tl_tries := tries + 1; tl_elapsed := elapsed |}.

(** The milliseconds left until [abstime], as lines 282-289 compute
    them: [sec_diff] and [nsec_diff] are [long], the sum is [int64_t],
    and [/] rounds toward zero. *)
Definition total_ms64 (abstime now : timespec) : Z :=
  let sec_diff := to_long (to_int64 (tv_sec abstime - tv_sec now)) in
  let nsec_diff := to_long (tv_nsec abstime - tv_nsec now) in
  let nsec_diff' :=
    if nsec_diff <? 0 then to_long (nsec_diff + 1000000000) else nsec_diff in
  let sec_diff' :=
    if nsec_diff <? 0 then to_long (sec_diff - 1) else sec_diff in
  to_int64 (to_int64 (sec_diff' * 1000) + Z.quot nsec_diff' 1000000).

(** [ft] is what the clock reads during the call.  [timeout_ms] is
    assigned on the path of a null [abstime] only (line 292).  On the
    other path the loop of line 297 reads the variable although nothing
    was stored in it since its declaration; what it holds then is not
    determined by the program, and the model takes it as the argument
    [timeout_ms_decl]. *)
Definition xpthread_mutex_timedlock (self : Z) (mutex : CRITICAL_SECTION)
    (abstime : option timespec) (ft : FILETIME) (timeout_ms_decl : Z)
    (others : environment)
  : option timedlock_result :=
  match abstime with
  | Some abstime =>
      let now := xpthread_get_realtime ft in
      if total_ms64 abstime now <=? 0
      then Some {| tl_status := ETIMEDOUT; tl_mutex := mutex;
                   tl_tries := 0; tl_elapsed := 0 |}
      else
        let timeout_ms := dword timeout_ms_decl in
        poll (Z.to_nat timeout_ms) self others timeout_ms 0 0 mutex
  | None =>
      let timeout_ms := INFINITE in
      poll (Z.to_nat timeout_ms) self others timeout_ms 0 0 mutex
  end.

(** *** Priority ceiling and robustness *)

Definition xpthread_mutex_getprioceiling (mutex : CRITICAL_SECTION)
    (prioceiling : option Z)
  : Z * option Z * CRITICAL_SECTION :=
  match prioceiling with
  | None => (EINVAL, None, mutex)
  | Some _ => (0, Some 0, mutex)
  end.

Definition xpthread_mutex_setprioceiling (mutex : CRITICAL_SECTION)
    (prioceiling : Z) (old_ceiling : option Z)
  : Z * option Z * CRITICAL_SECTION :=
  (0, match old_ceiling with Some _ => Some 0 | None => None end, mutex).

Definition xpthread_mutex_consistent (mutex : CRITICAL_SECTION)
  : Z * CRITICAL_SECTION :=
  (0, mutex).

End Mutex.

(** ** Once-initializer *)

Module Once.

(** An [INIT_ONCE] between two calls: one-time initialization has
    completed or it has not. *)
Inductive INIT_ONCE := INIT_ONCE_STATIC_INIT | INIT_ONCE_COMPLETED.

Record once_ctx := { fn : Z }.

(** User functions are known by their address; running one appends the
    address to [calls], the list of initializers run so far. *)
Definition callback := option once_ctx -> list Z -> bool * list Z.

Definition once_wrapper : callback := fun param calls =>
  match param with
  | None => (false, calls)
  | Some ctx =>
      if fn ctx =? 0 then (false, calls) else (true, calls ++ [fn ctx])
  end.

(** The Win32 primitive: a completed control answers [TRUE] at once;
    otherwise the callback runs, and the control is completed when the
    callback answers [TRUE]. *)
Definition InitOnceExecuteOnce (InitOnce : INIT_ONCE) (InitFn : callback)
    (param : option once_ctx) (calls : list Z)
  : bool * INIT_ONCE * list Z :=
  match InitOnce with
  | INIT_ONCE_COMPLETED => (true, INIT_ONCE_COMPLETED, calls)
  | INIT_ONCE_STATIC_INIT =>
      let (ok, calls') := InitFn param calls in
      (ok, if ok then INIT_ONCE_COMPLETED else INIT_ONCE_STATIC_INIT, calls')
  end.

Definition xpthread_once (once_control : INIT_ONCE) (init_routine : Z)
    (calls : list Z)
  : Z * INIT_ONCE * list Z :=
  let ctx := {| fn := init_routine |} in
  let '(result, once_control', calls') :=
    InitOnceExecuteOnce once_control once_wrapper (Some ctx) calls in
  (if result then 0 else -1, once_control', calls').

End Once.

(** ** Thread lifecycle and cancellation *)

Module Thread.

Record xpthread_win_ctx := {
  start_routine : Z;
  arg : Z;
  cancel_requested : Z;
  retval : Z
}.

(** A thread of the process: the argument [_beginthreadex] hands to its
    start function, and its exit code once it has ended. *)
Record thread_object := {
  th_arg : Z;
  th_exit_code : option Z
}.

Record process := {
  heap : gmap Z xpthread_win_ctx;   (* blocks obtained from calloc *)
  threads : gmap Z thread_object;   (* threads, by the value of their handle *)
  open_handles : gset Z;            (* handles not yet closed *)
  xpthread_self_ctx : gmap Z Z;     (* the thread-local pointer, by thread *)
  cancel_state : gmap Z Z;          (* cancel_state of xpthread_setcancelstate *)
  cancel_type : gmap Z Z;           (* cancel_state of xpthread_setcanceltype *)
  next : Z                          (* the next unused address *)
}.

Inductive result (A : Type) :=
| Ret (a : A) (p : process)         (* the call returns *)
| EndThread (code : Z) (p : process) (* the calling thread has ended *)
| Blocked                           (* the caller waits *)
| Fault.                            (* access through a dangling pointer *)
Arguments Ret {A} a p.
Arguments EndThread {A} code p.
Arguments Blocked {A}.
Arguments Fault {A}.

(** A computation of the thread [self]. *)
Definition thread_m (A : Type) : Type := Z -> process -> result A.

Definition ret {A} (a : A) : thread_m A := fun _ p => Ret a p.

Definition bind {A B} (m : thread_m A) (k : A -> thread_m B) : thread_m B :=
  fun self p =>
    match m self p with
    | Ret a p' => k a self p'
    | EndThread code p' => EndThread code p'
    | Blocked => Blocked
    | Fault => Fault
    end.

Notation "x <- m ;; k" := (bind m (fun x => k))
  (at level 100, m at next level, right associativity).
Notation "m ;;; k" := (bind m (fun _ => k))
  (at level 100, right associativity).

(** The program text: what the function at an address does when it is
    called with an argument. *)
Definition image := Z -> Z -> thread_m Z.

(** *** State accessors *)

Definition with_heap (h : gmap Z xpthread_win_ctx) (p : process) : process :=
  {| heap := h; threads := threads p; open_handles := open_handles p;
     xpthread_self_ctx := xpthread_self_ctx p; cancel_state := cancel_state p;
     cancel_type := cancel_type p; next := next p |}.

Definition with_threads (t : gmap Z thread_object) (p : process) : process :=
  {| heap := heap p; threads := t; open_handles := open_handles p;
     xpthread_self_ctx := xpthread_self_ctx p; cancel_state := cancel_state p;
     cancel_type := cancel_type p; next := next p |}.

Definition with_open_handles (o : gset Z) (p : process) : process :=
  {| heap := heap p; threads := threads p; open_handles := o;
     xpthread_self_ctx := xpthread_self_ctx p; cancel_state := cancel_state p;
     cancel_type := cancel_type p; next := next p |}.

Definition with_self_ctx (s : gmap Z Z) (p : process) : process :=
  {| heap := heap p; threads := threads p; open_handles := open_handles p;
     xpthread_self_ctx := s; cancel_state := cancel_state p;
     cancel_type := cancel_type p; next := next p |}.

Definition with_cancel_state (s : gmap Z Z) (p : process) : process :=
  {| heap := heap p; threads := threads p; open_handles := open_handles p;
     xpthread_self_ctx := xpthread_self_ctx p; cancel_state := s;
     cancel_type := cancel_type p; next := next p |}.

Definition with_cancel_type (s : gmap Z Z) (p : process) : process :=
  {| heap := heap p; threads := threads p; open_handles := open_handles p;
     xpthread_self_ctx := xpthread_self_ctx p; cancel_state := cancel_state p;
     cancel_type := s; next := next p |}.

Definition with_next (n : Z) (p : process) : process :=
  {| heap := heap p; threads := threads p; open_handles := open_handles p;
     xpthread_self_ctx := xpthread_self_ctx p; cancel_state := cancel_state p;
     cancel_type := cancel_type p; next := n |}.

(** The thread-local [xpthread_self_ctx], [NULL] until it is assigned. *)
Definition get_self_ctx (self : Z) (p : process) : Z :=
  default 0 (xpthread_self_ctx p !! self).

(** *** Platform primitives *)

(** [calloc(1, sizeof(xpthread_win_ctx))]: a zeroed block, or [NULL]. *)
Definition calloc (ok : bool) : thread_m Z := fun _ p =>
  if ok
  then Ret (next p)
         (with_next (next p + 1)
            (with_heap (<[next p := {| start_routine := 0; arg := 0;
                                        cancel_requested := 0; retval := 0 |}]>
                          (heap p)) p))
  else Ret 0 p.

Definition free (addr : Z) : thread_m unit := fun _ p =>
  Ret tt (with_heap (delete addr (heap p)) p).

(** [_beginthreadex(NULL, 0, thread_wrapper, arg, 0, NULL)]: the handle
    of a new thread, or [0]. *)
Definition _beginthreadex (ok : bool) (arg : Z) : thread_m Z := fun _ p =>
  if ok
  then Ret (next p)
         (with_next (next p + 1)
            (with_open_handles ({[next p]} ∪ open_handles p)
               (with_threads (<[next p := {| th_arg := arg;
                                             th_exit_code := None |}]>
                                (threads p)) p)))
  else Ret 0 p.

Definition _endthreadex {A} (code : Z) : thread_m A := fun _ p =>
  EndThread code p.

(** The pseudo-handle of [GetCurrentThread]; in every thread it denotes
    the thread that uses it. *)
Definition GetCurrentThread : Z := -2.

(** [WaitForSingleObject(h, INFINITE)] on a thread handle.  On the
    pseudo-handle the caller waits for itself, which has not ended; on a
    value that is no open handle the wait fails at once. *)
Definition WaitForSingleObject (h : Z) : thread_m unit := fun _ p =>
  if h =? GetCurrentThread then Blocked
  else if decide (h ∈ open_handles p)
  then match threads p !! h with
       | Some {| th_exit_code := None |} => Blocked
       | _ => Ret tt p
       end
  else Ret tt p.

Definition GetExitCodeThread (h : Z) : thread_m Z := fun _ p =>
  match threads p !! h with
  | Some {| th_exit_code := Some code |} => Ret code p
  | _ => Ret 0 p
  end.

Definition CloseHandle (h : Z) : thread_m bool := fun _ p =>
  if decide (h ∈ open_handles p)
  then Ret true (with_open_handles (open_handles p ∖ {[h]}) p)
  else Ret false p.

(** [InterlockedCompareExchange(&dest, exchange, comparand)]: the value
    read, and the value left in [dest]. *)
Definition InterlockedCompareExchange (dest exchange comparand : Z) : Z * Z :=
  (dest, if dest =? comparand then exchange else dest).

(** *** The thread functions of [xpthread.c] *)

Definition thread_wrapper (text : image) (arg : Z) : thread_m Z :=
  fun self p =>
    let ctx := arg in
    let p1 := with_self_ctx (<[self := ctx]> (xpthread_self_ctx p)) p in
    match heap p1 !! ctx with
    | None => Fault
    | Some c =>
        match text (start_routine c) (Thread.arg c) self p1 with
        | Ret r p2 =>
            match heap p2 !! ctx with
            | None => Fault
            | Some c2 =>
                _endthreadex 0 self
                  (with_heap (<[ctx := {| start_routine := start_routine c2;
                                          arg := Thread.arg c2;
                                          cancel_requested := cancel_requested c2;
                                          retval := r |}]> (heap p2)) p2)
            end
        | EndThread code p2 => EndThread code p2
        | Blocked => Blocked
        | Fault => Fault
        end
    end.

Definition xpthread_create (calloc_ok begin_ok : bool) (thread : option Z)
    (attr start_routine arg : Z)
  : thread_m (Z * option Z) :=
  ctx <- calloc calloc_ok ;;
  if ctx =? 0 then ret (ENOMEM, thread) else
  (fun self p =>
     match heap p !! ctx with
     | None => Fault
     | Some c =>
         Ret tt (with_heap (<[ctx := {| start_routine := start_routine;
                                        Thread.arg := arg;
                                        cancel_requested := cancel_requested c;
                                        retval := retval c |}]> (heap p)) p)
     end) ;;;
  h <- _beginthreadex begin_ok ctx ;;
  if h =? 0 then free ctx ;;; ret (EAGAIN, thread) else
  match thread with
  | None => fun _ _ => Fault
  | Some _ => ret (0, Some h)
  end.

Definition xpthread_join (thread : Z) (retval : option Z)
  : thread_m (Z * option Z) :=
  WaitForSingleObject thread ;;;
  code <- GetExitCodeThread thread ;;
  retval' <- (fun self p =>
    match retval with
    | None => Ret None p
    | Some old =>
        if get_self_ctx self p =? 0 then Ret (Some old) p
        else match heap p !! get_self_ctx self p with
             | Some c => Ret (Some (Thread.retval c)) p
             | None => Fault
             end
    end) ;;
  CloseHandle thread ;;;
  ret (0, retval').

Definition xpthread_self : thread_m Z := ret GetCurrentThread.

Definition xpthread_detach (thread : Z) : thread_m Z :=
  closed <- CloseHandle thread ;;
  ret (if closed : bool then 0 else -1).

Definition xpthread_setcancelstate (state : Z) (oldstate : option Z)
  : thread_m (Z * option Z) :=
  fun self p =>
    let current := default XPTHREAD_CANCEL_ENABLE (cancel_state p !! self) in
    let oldstate' :=
      match oldstate with Some _ => Some current | None => None end in
    Ret (0, oldstate')
        (with_cancel_state (<[self := state]> (cancel_state p)) p).

Definition xpthread_setcanceltype (type : Z) (oldtype : option Z)
  : thread_m (Z * option Z) :=
  fun self p =>
    let current := default XPTHREAD_CANCEL_ENABLE (cancel_type p !! self) in
    let oldtype' :=
      match oldtype with Some _ => Some current | None => None end in
    Ret (0, oldtype')
        (with_cancel_type (<[self := type]> (cancel_type p)) p).

Definition xpthread_equal (t1 t2 : Z) : bool := t1 =? t2.

Definition xpthread_cancel (th : Z) : thread_m Z :=
  if th =? 0 then ret EINVAL else ret 0.

Definition xpthread_testcancel : thread_m unit :=
  fun self p =>
    let ctx := get_self_ctx self p in
    if ctx =? 0 then Ret tt p
    else match heap p !! ctx with
         | None => Fault
         | Some c =>
             let (seen, left) :=
               InterlockedCompareExchange (cancel_requested c) 0 0 in
             let p' :=
               with_heap (<[ctx := {| start_routine := start_routine c;
                                      arg := arg c;
                                      cancel_requested := left;
                                      retval := retval c |}]> (heap p)) p in
             if seen =? 0 then Ret tt p' else _endthreadex 0 self p'
         end.

Definition xpthread_exit (retval : Z) : thread_m unit :=
  let code := if retval =? 0 then 0 else dword retval in
  _endthreadex code.

(** *** Running a created thread *)

(** The thread behind handle [h] runs [thread_wrapper] to its end; its
    exit code is recorded in the thread object. *)
Definition run_thread (text : image) (h : Z) (p : process) : option process :=
  match threads p !! h with
  | Some {| th_arg := a; th_exit_code := None |} =>
      match thread_wrapper text a h p with
      | EndThread code p' =>
          Some (with_threads (<[h := {| th_arg := a;
                                        th_exit_code := Some code |}]>
                                (threads p')) p')
      | _ => None
      end
  | _ => None
  end.

(** The process as [main] finds it: no thread created, no context
    record, and an initial thread whose [xpthread_self_ctx] is [NULL]. *)
Definition boot : process :=
  {| heap := ∅; threads := ∅; open_handles := ∅; xpthread_self_ctx := ∅;
     cancel_state := ∅; cancel_type := ∅; next := 4096 |}.

Definition main_thread : Z := 1.

End Thread.

(** ** Programs that use the interface *)

Module Scenario.
Import Thread.

(** The address of the entry function handed to [xpthread_create]. *)
Definition entry : Z := 256.

(** An entry function that calls [xpthread_exit(v)]. *)
Definition exits_with (v : Z) : image := fun f _ =>
  if f =? entry then xpthread_exit v ;;; ret 0 else ret 0.

(** An entry function that returns [v]. *)
Definition returns (v : Z) : image := fun f _ =>
  if f =? entry then ret v else ret 0.

(** An entry function that passes a cancellation checkpoint and then
    returns [v]. *)
Definition checkpoint_then_returns (v : Z) : image := fun f _ =>
  if f =? entry then xpthread_testcancel ;;; ret v else ret 0.

(** [main] creates a thread, the thread runs to its end, [main] joins it
    with [retval] pointing to a cell that holds [r0].  The result is the
    status of the join and the cell after it. *)
Definition create_run_join (text : image) (r0 : Z) : option (Z * Z) :=
  match xpthread_create true true (Some 0) 0 entry 0 main_thread boot with
  | Ret (0, Some h) p1 =>
      match run_thread text h p1 with
      | Some p2 =>
          match xpthread_join h (Some r0) main_thread p2 with
          | Ret (status, Some r) _ => Some (status, r)
          | _ => None
          end
      | None => None
      end
  | _ => None
  end.

(** A created thread [joiner] creates a second thread, lets it end and
    joins it; the result is the cell [joiner] passed to the join. *)
Definition joiner_entry : Z := 512.

Definition joins_child (text : image) (r0 : Z) : image := fun f a =>
  if f =? joiner_entry then
    fun self p =>
      match xpthread_create true true (Some 0) 0 entry 0 self p with
      | Ret (0, Some h) p1 =>
          match run_thread text h p1 with
          | Some p2 =>
              match xpthread_join h (Some r0) self p2 with
              | Ret (_, Some r) p3 => Ret r p3
              | _ => Fault
              end
          | None => Fault
          end
      | _ => Fault
      end
  else text f a.

Definition nested_join (text : image) (r0 : Z) : option Z :=
  match xpthread_create true true (Some 0) 0 joiner_entry 0 main_thread boot with
  | Ret (0, Some j) p1 =>
      match threads p1 !! j, run_thread (joins_child text r0) j p1 with
      | Some t, Some p2 => retval <$> (heap p2 !! th_arg t)
      | _, _ => None
      end
  | _ => None
  end.

(** [main] creates a thread and requests its cancellation before the
    thread reaches its checkpoint.  The result is the status of the
    request, the thread's pending-request flag after the request, the
    thread's cancellation state, and what the thread left in its
    return-value slot. *)
Definition cancel_then_checkpoint (v : Z) : option (Z * Z * Z * Z) :=
  match xpthread_create true true (Some 0) 0 entry 0 main_thread boot with
  | Ret (0, Some h) p1 =>
      match xpthread_cancel h main_thread p1 with
      | Ret status p2 =>
          match threads p2 !! h with
          | Some t =>
              match heap p2 !! th_arg t, run_thread (checkpoint_then_returns v) h p2 with
              | Some c, Some p3 =>
                  match heap p3 !! th_arg t with
                  | Some c3 =>
                      Some (status, cancel_requested c,
                            default XPTHREAD_CANCEL_ENABLE (cancel_state p2 !! h),
                            retval c3)
                  | None => None
                  end
              | _, _ => None
              end
          | None => None
          end
      | _ => None
      end
  | _ => None
  end.

End Scenario.

(** ** The status-returning calls of the interface *)

Module Interface.
Import Clock Mutex Once Thread.

(** One call of a function of [xpthread.h] that returns [int] as a
    status, with its arguments, the state it is made in and what the
    platform answers. *)
Inductive api_call :=
| call_once (once_control : INIT_ONCE) (init_routine : Z) (calls : list Z)
| call_create (calloc_ok begin_ok : bool) (thread : option Z)
    (attr start_routine arg : Z) (self : Z) (p : process)
| call_join (thread : Z) (retval : option Z) (self : Z) (p : process)
| call_detach (thread : Z) (self : Z) (p : process)
| call_setcancelstate (state : Z) (oldstate : option Z) (self : Z) (p : process)
| call_setcanceltype (type : Z) (oldtype : option Z) (self : Z) (p : process)
| call_cancel (th : Z) (self : Z) (p : process)
| call_mutex_init (spin_ok : bool) (mutex : CRITICAL_SECTION)
| call_mutex_destroy (mutex : CRITICAL_SECTION)
| call_mutex_lock (self : Z) (mutex : CRITICAL_SECTION)
| call_mutex_unlock (mutex : CRITICAL_SECTION)
| call_mutex_trylock (self : Z) (mutex : CRITICAL_SECTION)
| call_mutex_timedlock (self : Z) (mutex : CRITICAL_SECTION)
    (abstime : option timespec) (ft : FILETIME) (timeout_ms_decl : Z)
    (others : environment)
| call_mutex_getprioceiling (mutex : CRITICAL_SECTION) (prioceiling : option Z)
| call_mutex_setprioceiling (mutex : CRITICAL_SECTION) (prioceiling : Z)
    (old_ceiling : option Z)
| call_mutex_consistent (mutex : CRITICAL_SECTION).

Definition status_of_result {A} (status : A -> Z) (r : result A) : option Z :=
  match r with
  | Ret a _ => Some (status a)
  | _ => None
  end.

(** The status a call returns, when it returns. *)
Definition returned_status (c : api_call) : option Z :=
  match c with
  | call_once once_control init_routine calls =>
      Some (xpthread_once once_control init_routine calls).1.1
  | call_create calloc_ok begin_ok thread attr start_routine arg self p =>
      status_of_result fst
        (xpthread_create calloc_ok begin_ok thread attr start_routine arg self p)
  | call_join thread retval self p =>
      status_of_result fst (xpthread_join thread retval self p)
  | call_detach thread self p =>
      status_of_result id (xpthread_detach thread self p)
  | call_setcancelstate state oldstate self p =>
      status_of_result fst (xpthread_setcancelstate state oldstate self p)
  | call_setcanceltype type oldtype self p =>
      status_of_result fst (xpthread_setcanceltype type oldtype self p)
  | call_cancel th self p =>
      status_of_result id (xpthread_cancel th self p)
  | call_mutex_init spin_ok mutex =>
      Some (xpthread_mutex_init spin_ok mutex).1
  | call_mutex_destroy mutex =>
      Some (xpthread_mutex_destroy mutex).1
  | call_mutex_lock self mutex =>
      fst <$> xpthread_mutex_lock self mutex
  | call_mutex_unlock mutex =>
      Some (xpthread_mutex_unlock mutex).1
  | call_mutex_trylock self mutex =>
      Some (xpthread_mutex_trylock self mutex).1
  | call_mutex_timedlock self mutex abstime ft timeout_ms_decl others =>
      tl_status <$>
        xpthread_mutex_timedlock self mutex abstime ft timeout_ms_decl others
  | call_mutex_getprioceiling mutex prioceiling =>
      Some (xpthread_mutex_getprioceiling mutex prioceiling).1.1
  | call_mutex_setprioceiling mutex prioceiling old_ceiling =>
      Some (xpthread_mutex_setprioceiling mutex prioceiling old_ceiling).1.1
  | call_mutex_consistent mutex =>
      Some (xpthread_mutex_consistent mutex).1
  end.

(** The set of status values the interface description names. *)
Definition named_status (st : Z) : Prop :=
  st = 0 \/ st = ETIMEDOUT \/ st = EBUSY \/ st = EINVAL \/ st = ENOMEM \/
  st = EAGAIN \/ st = ENOTSUP \/ st = ENOSYS.

(** The set the code stays in. *)
Definition returned_set (st : Z) : Prop :=
  st = 0 \/ st = ETIMEDOUT \/ st = EBUSY \/ st = EINVAL \/ st = ENOMEM \/
  st = EAGAIN \/ st = -1.

End Interface.

(** ** Predicates on processes and computations *)

(** A thread has a cancellation request pending when it has a context
    record and the flag of that record is set. *)
Definition pending (self : Z) (p : Thread.process) : Prop :=
  exists c, Thread.get_self_ctx self p <> 0 /\
            Thread.heap p !! Thread.get_self_ctx self p = Some c /\
            Thread.cancel_requested c <> 0.

Definition ends_thread {A} (r : Thread.result A) : Prop :=
  exists code p', r = Thread.EndThread code p'.

(** Every context record has its flag clear. *)
Definition no_request (p : Thread.process) : Prop :=
  forall a c, Thread.heap p !! a = Some c -> Thread.cancel_requested c = 0.

(** A computation that keeps [no_request]. *)
Definition keeps_no_request {A} (m : Thread.thread_m A) : Prop :=
  forall self p, no_request p ->
    match m self p with
    | Thread.Ret _ p' | Thread.EndThread _ p' => no_request p'
    | _ => True
    end.

(** Whenever the computation returns, what it returns satisfies [P]. *)
Definition returns_in {A} (P : A -> Prop) (m : Thread.thread_m A) : Prop :=
  forall self p,
    match m self p with
    | Thread.Ret a _ => P a
    | _ => True
    end.

(** ** Proof steps *)

(** One step through the primitives of a join: a case split on the
    handle table or on the thread table, then the reduction it enables. *)
Ltac join_step :=
  match goal with
  | |- context [?h =? Thread.GetCurrentThread] =>
      destruct (h =? Thread.GetCurrentThread)
  | |- context [decide (?h ∈ Thread.open_handles ?p)] =>
      destruct (decide (h ∈ Thread.open_handles p))
  | |- context [Thread.threads ?p !! ?h] =>
      destruct (Thread.threads p !! h) as [[? [?|]]|]
  end; cbv beta iota.

(** ** Definitions for the further properties *)

(** The tick count of a [FILETIME], as [QuadPart] reads it back. *)
Definition ticks_of (ft : Clock.FILETIME) : Z :=
  dword (Clock.dwHighDateTime ft) * 2 ^ 32 + dword (Clock.dwLowDateTime ft).

(** The ticks between 1601-01-01 and 1970-01-01 (line 265). *)
Definition epoch_ticks : Z := 116444736000000000.

(** A point in time as a count of nanoseconds. *)
Definition nanoseconds (ts : Clock.timespec) : Z :=
  Clock.tv_sec ts * 1000000000 + Clock.tv_nsec ts.

(** The other threads hold the critical section until the sleep that
    starts at [elapsed = k], and release it during that sleep. *)
Definition released_during (k : Z) : Mutex.environment :=
  fun elapsed cs => if elapsed =? k then Mutex.unlocked else cs.

(** [n] calls of [xpthread_mutex_lock] by one thread, one after the other;
    [None] when one of them is left waiting. *)
Fixpoint lock_times (n : nat) (self : Z) (mutex : Mutex.CRITICAL_SECTION)
  : option Mutex.CRITICAL_SECTION :=
  match n with
  | O => Some mutex
  | S n' =>
      match Mutex.xpthread_mutex_lock self mutex with
      | Some (_, mutex') => lock_times n' self mutex'
      | None => None
      end
  end.

(** [n] calls of [xpthread_mutex_unlock], one after the other. *)
Fixpoint unlock_times (n : nat) (mutex : Mutex.CRITICAL_SECTION)
  : Mutex.CRITICAL_SECTION :=
  match n with
  | O => mutex
  | S n' => unlock_times n' (Mutex.xpthread_mutex_unlock mutex).2
  end.

(** Another thread than [self] owns the critical section. *)
Definition owned_by_other (self : Z) (cs : Mutex.CRITICAL_SECTION) : Prop :=
  exists o, Mutex.OwningThread cs = Some o /\ o <> self.

(** A sequence of calls of [xpthread_once] on one control, one initializer
    per call: the statuses in order, the control and the initializers run. *)
Fixpoint once_calls (inits : list Z) (once_control : Once.INIT_ONCE)
    (calls : list Z) : list Z * Once.INIT_ONCE * list Z :=
  match inits with
  | [] => ([], once_control, calls)
  | init_routine :: rest =>
      let '(status, once_control', calls') :=
        Once.xpthread_once once_control init_routine calls in
      let '(statuses, once_control'', calls'') :=
        once_calls rest once_control' calls' in
      (status :: statuses, once_control'', calls'')
  end.

(** The allocator of the process is ahead of everything allocated: no
    record, thread or handle lives at [next] or beyond, and [next] is not
    [NULL]. *)
Definition well_formed (p : Thread.process) : Prop :=
  0 < Thread.next p /\
  (forall a, Thread.next p <= a -> Thread.heap p !! a = None) /\
  (forall h, Thread.next p <= h ->
             Thread.threads p !! h = None /\ h ∉ Thread.open_handles p).

(** The join is left waiting: the handle is open and its thread has not
    ended. *)
Definition still_running (thread : Z) (p : Thread.process) : Prop :=
  thread ∈ Thread.open_handles p /\
  exists a, Thread.threads p !! thread
            = Some {| Thread.th_arg := a; Thread.th_exit_code := None |}.

(** The process after [CloseHandle(h)]. *)
Definition close_handle (h : Z) (p : Thread.process) : Thread.process :=
  if decide (h ∈ Thread.open_handles p)
  then Thread.with_open_handles (Thread.open_handles p ∖ {[h]}) p
  else p.

(** What a join leaves in the cell behind [retval]. *)
Definition joined_cell (retval : option Z) (self : Z) (p : Thread.process)
  : option (option Z) :=
  match retval with
  | None => Some None
  | Some old =>
      if Thread.get_self_ctx self p =? 0 then Some (Some old)
      else match Thread.heap p !! Thread.get_self_ctx self p with
           | Some c => Some (Some (Thread.retval c))
           | None => None
           end
  end.

(** A process in which the thread behind handle 4097 has returned [7]:
    its record is at 4096, its handle is still open. *)
Definition after_return : Thread.process :=
  {| Thread.heap := {[ 4096 := {| Thread.start_routine := 256; Thread.arg := 0;
                                  Thread.cancel_requested := 0;
                                  Thread.retval := 7 |} ]};
     Thread.threads := {[ 4097 := {| Thread.th_arg := 4096;
                                     Thread.th_exit_code := Some 0 |} ]};
     Thread.open_handles := {[ 4097 ]};
     Thread.xpthread_self_ctx := {[ 4097 := 4096 ]};
     Thread.cancel_state := ∅; Thread.cancel_type := ∅;
     Thread.next := 4098 |}.

(** A process in which the thread behind handle 4097 has been created and
    has not run yet. *)
Definition after_create : Thread.process :=
  {| Thread.heap := {[ 4096 := {| Thread.start_routine := 256; Thread.arg := 0;
                                  Thread.cancel_requested := 0;
                                  Thread.retval := 0 |} ]};
     Thread.threads := {[ 4097 := {| Thread.th_arg := 4096;
                                     Thread.th_exit_code := None |} ]};
     Thread.open_handles := {[ 4097 ]};
     Thread.xpthread_self_ctx := ∅;
     Thread.cancel_state := ∅; Thread.cancel_type := ∅;
     Thread.next := 4098 |}.

(** ** The test program: threads that share a counter

    [thread_func] of [src/test/xpthread_tests.c] between its two calls of
    the interface: lock the mutex, read [counter], write [old + 1], unlock.
    The threads of [main] run interleaved; one step of a thread is one of
    these four actions. *)

Module Test.

(** Where a thread stands in [thread_func]. *)
Inductive location :=
| at_lock                 (* before [xpthread_mutex_lock(&mutex)] *)
| at_read                 (* before [int old = counter] *)
| at_write (old : Z)      (* before [counter = old + 1] *)
| at_unlock               (* before [xpthread_mutex_unlock(&mutex)] *)
| finished.               (* after it *)

Record state := {
  mutex : Mutex.CRITICAL_SECTION;
  counter : Z;
  threads : list location
}.

(** The identity of the thread [main] creates in round [i] of its loop. *)
Definition tid (i : nat) : Z := Z.of_nat i + 2.

(** [main] after [xpthread_mutex_init] and the creation of [n] threads. *)
Definition start (n : nat) : state :=
  {| mutex := Mutex.unlocked; counter := 0; threads := replicate n at_lock |}.

(** One step of thread [i]; [None] when the thread cannot move: it
    waits for the mutex, has finished, or does not exist.  [counter] is an
    [int], which has the 32 bits of a [long]. *)
Definition step (i : nat) (s : state) : option state :=
  match threads s !! i with
  | Some at_lock =>
      match Mutex.xpthread_mutex_lock (tid i) (mutex s) with
      | Some (_, mutex') =>
          Some {| mutex := mutex'; counter := counter s;
                  threads := <[i := at_read]> (threads s) |}
      | None => None
      end
  | Some at_read =>
      Some {| mutex := mutex s; counter := counter s;
              threads := <[i := at_write (counter s)]> (threads s) |}
  | Some (at_write old) =>
      Some {| mutex := mutex s; counter := to_long (old + 1);
              threads := <[i := at_unlock]> (threads s) |}
  | Some at_unlock =>
      Some {| mutex := (Mutex.xpthread_mutex_unlock (mutex s)).2;
              counter := counter s;
              threads := <[i := finished]> (threads s) |}
  | Some finished => None
  | None => None
  end.

(** A schedule names the thread that is given the processor, turn by
    turn; a thread that cannot move lets its turn pass. *)
Fixpoint run (schedule : list nat) (s : state) : state :=
  match schedule with
  | [] => s
  | i :: rest => run rest (default s (step i s))
  end.

(** The thread is between its lock and its unlock. *)
Definition in_critical_section (l : location) : bool :=
  match l with
  | at_read | at_write _ | at_unlock => true
  | at_lock | finished => false
  end.

(** The thread has written its increment. *)
Definition has_written (l : location) : bool :=
  match l with
  | at_unlock | finished => true
  | _ => false
  end.

Fixpoint written (ls : list location) : Z :=
  match ls with
  | [] => 0
  | l :: rest => (if has_written l then 1 else 0) + written rest
  end.

Definition all_finished (s : state) : Prop :=
  forall i l, threads s !! i = Some l -> l = finished.

(** What every reachable state satisfies. *)
Definition invariant (s : state) : Prop :=
  ((mutex s = Mutex.unlocked /\
    forall i l, threads s !! i = Some l -> in_critical_section l = false)
   \/
   (exists i l, threads s !! i = Some l /\ in_critical_section l = true /\
      mutex s = Mutex.held_by (tid i) /\
      forall j l', j <> i -> threads s !! j = Some l' ->
                   in_critical_section l' = false)) /\
  counter s = written (threads s) /\
  (forall i old, threads s !! i = Some (at_write old) -> old = counter s).

End Test.

(** The number of threads between their lock and their unlock. *)
Fixpoint inside (ls : list Test.location) : Z :=
  match ls with
  | [] => 0
  | l :: rest => (if Test.in_critical_section l then 1 else 0) + inside rest
  end.

(** The steps a thread still has to take, and their sum over all
    threads. *)
Definition steps_left (l : Test.location) : Z :=
  match l with
  | Test.at_lock => 4
  | Test.at_read => 3
  | Test.at_write _ => 2
  | Test.at_unlock => 1
  | Test.finished => 0
  end.

Fixpoint remaining (ls : list Test.location) : Z :=
  match ls with
  | [] => 0
  | l :: rest => steps_left l + remaining rest
  end.

(** Four threads taking turns, sixteen rounds. *)
Definition round_robin : list nat :=
  concat (replicate 16 [0; 1; 2; 3]%nat).

(** An entry function that disables cancellation, passes a checkpoint,
    enables cancellation again, passes a second checkpoint and returns
    [v]. *)
Definition reenables_then_returns (v : Z) : Thread.image := fun f _ =>
  if f =? Scenario.entry then
    Thread.bind
      (Thread.xpthread_setcancelstate XPTHREAD_CANCEL_DISABLE None) (fun _ =>
    Thread.bind Thread.xpthread_testcancel (fun _ =>
    Thread.bind
      (Thread.xpthread_setcancelstate XPTHREAD_CANCEL_ENABLE None) (fun _ =>
    Thread.bind Thread.xpthread_testcancel (fun _ =>
    Thread.ret v))))
  else Thread.ret 0.

(** [main] creates a thread and requests its cancellation before the
    thread takes its first step; then the thread runs [text] to its end.
    The result is the status of the request, the thread's
    pending-request flag after the request, and what the thread left in
    its return-value slot. *)
Definition cancel_then_run (text : Thread.image) : option (Z * Z * Z) :=
  match Thread.xpthread_create true true (Some 0) 0 Scenario.entry 0
          Thread.main_thread Thread.boot with
  | Thread.Ret (0, Some h) p1 =>
      match Thread.xpthread_cancel h Thread.main_thread p1 with
      | Thread.Ret status p2 =>
          match Thread.threads p2 !! h with
          | Some t =>
              match Thread.heap p2 !! Thread.th_arg t,
                    Thread.run_thread text h p2 with
              | Some c, Some p3 =>
                  match Thread.heap p3 !! Thread.th_arg t with
                  | Some c3 =>
                      Some (status, Thread.cancel_requested c, Thread.retval c3)
                  | None => None
                  end
              | _, _ => None
              end
          | None => None
          end
      | _ => None
      end
  | _ => None
  end.

(** * Properties *)

(** ** Fixed-width conversions *)

Lemma dword_range x : 0 <= dword x < 4294967296.
Proof. unfold dword. apply Z.mod_pos_bound. reflexivity. Qed.

Lemma dword_small x : 0 <= x < 4294967296 -> dword x = x.
Proof. intros H. unfold dword. apply Z.mod_small. exact H. Qed.

Lemma to_uint64_small x : 0 <= x < 2 ^ 64 -> to_uint64 x = x.
Proof. intros H. unfold to_uint64. apply Z.mod_small. exact H. Qed.

Lemma to_long_small x : - 2 ^ 31 <= x < 2 ^ 31 -> to_long x = x.
Proof.
  intros H. unfold to_long.
  rewrite Z.mod_small; [ring | change (2 ^ 32) with (2 ^ 31 + 2 ^ 31); lia].
Qed.

Lemma to_int64_small x : - 2 ^ 63 <= x < 2 ^ 63 -> to_int64 x = x.
Proof.
  intros H. unfold to_int64.
  rewrite Z.mod_small; [ring | change (2 ^ 64) with (2 ^ 63 + 2 ^ 63); lia].
Qed.

(** ** Time source *)

Lemma realtime_nsec_range ft :
  0 <= Clock.tv_nsec (Clock.xpthread_get_realtime ft) < 1000000000.
Proof.
  unfold Clock.xpthread_get_realtime; cbn [Clock.tv_nsec].
  set (t := to_uint64 (_ - 116444736000000000)).
  assert (Hm : 0 <= t mod 10000000 < 10000000)
    by (apply Z.mod_pos_bound; reflexivity).
  rewrite to_uint64_small by (change (2 ^ 64) with 18446744073709551616; lia).
  rewrite to_long_small by (change (2 ^ 31) with 2147483648; lia).
  lia.
Qed.

Lemma realtime_sec_range ft :
  0 <= Clock.tv_sec (Clock.xpthread_get_realtime ft) < 1844674407371.
Proof.
  unfold Clock.xpthread_get_realtime; cbn [Clock.tv_sec].
  set (t := to_uint64 (_ - 116444736000000000)).
  assert (Ht : 0 <= t < 18446744073709551616)
    by (apply Z.mod_pos_bound; reflexivity).
  assert (Hq : 0 <= t / 10000000 < 1844674407371).
  { split.
    - apply Z.div_pos; lia.
    - apply Z.div_lt_upper_bound; lia. }
  rewrite to_int64_small by (change (2 ^ 63) with 9223372036854775808; lia).
  exact Hq.
Qed.

(** C7.  Whatever tick count the platform clock delivers, the
    [timespec] that [xpthread_get_realtime] writes on the emulated
    backend is in normal form: its nanoseconds lie in [0, 1e9). *)
Theorem get_realtime_normalized (ft : Clock.FILETIME) :
  Clock.normalized (Clock.xpthread_get_realtime ft).
Proof. unfold Clock.normalized. apply realtime_nsec_range. Qed.

(** The conversion itself: a clock that reads [sec] seconds and [ticks]
    units of 100 ns after the Unix epoch is written as [sec] and
    [100 * ticks]. *)
Example get_realtime_sample :
  Clock.xpthread_get_realtime (Clock.filetime_of_unix 1800000000 1234567)
  = {| Clock.tv_sec := 1800000000; Clock.tv_nsec := 123456700 |}.
Proof. vm_compute. reflexivity. Qed.

(** A clock set before 1970 wraps in [uint64_t]; the result is still in
    normal form. *)
Example get_realtime_before_epoch :
  Clock.xpthread_get_realtime {| Clock.dwLowDateTime := 7; Clock.dwHighDateTime := 0 |}
  = {| Clock.tv_sec := 1833029933770; Clock.tv_nsec := 955162300 |}.
Proof. vm_compute. reflexivity. Qed.

(** ** Critical sections *)

Lemma try_enter_other self o cs :
  Mutex.OwningThread cs = Some o -> o <> self ->
  Mutex.TryEnterCriticalSection self cs = (false, cs).
Proof.
  intros Ho Hne. unfold Mutex.TryEnterCriticalSection. rewrite Ho.
  destruct (Z.eqb_spec o self); [contradiction | reflexivity].
Qed.

Lemma try_enter_owner self cs cs' :
  Mutex.TryEnterCriticalSection self cs = (true, cs') ->
  Mutex.OwningThread cs' = Some self.
Proof.
  unfold Mutex.TryEnterCriticalSection.
  destruct (Mutex.OwningThread cs) as [o|].
  - destruct (o =? self); intros H; inversion H; reflexivity.
  - intros H; inversion H; reflexivity.
Qed.

Lemma try_enter_refused self cs cs' :
  Mutex.TryEnterCriticalSection self cs = (false, cs') -> cs' = cs.
Proof.
  unfold Mutex.TryEnterCriticalSection.
  destruct (Mutex.OwningThread cs) as [o|].
  - destruct (o =? self); intros H; inversion H; reflexivity.
  - intros H; inversion H.
Qed.

(** ** The polling loop *)

(** With as much fuel as there are milliseconds left the loop comes to
    its end, and it ends in one of two ways: the caller owns the section,
    or every attempt up to [timeout_ms] and the one after the loop was
    refused. *)
Lemma poll_spec fuel self others timeout_ms :
  0 <= timeout_ms < 4294967296 ->
  forall elapsed tries mutex,
  0 <= elapsed <= timeout_ms ->
  (Z.to_nat (timeout_ms - elapsed) <= fuel)%nat ->
  exists r, Mutex.poll fuel self others timeout_ms elapsed tries mutex = Some r /\
    ((Mutex.tl_status r = 0 /\
      Mutex.OwningThread (Mutex.tl_mutex r) = Some self /\
      tries + 1 <= Mutex.tl_tries r <= tries + (timeout_ms - elapsed) + 1)
     \/
     (Mutex.tl_status r = ETIMEDOUT /\
      Mutex.tl_tries r = tries + (timeout_ms - elapsed) + 1 /\
      Mutex.tl_elapsed r = timeout_ms)).
Proof.
  intros Ht. induction fuel as [|fuel IH]; intros elapsed tries mutex He Hf;
    cbn [Mutex.poll]; destruct (Z.ltb_spec elapsed timeout_ms) as [Hlt|Hge].
  - lia.
  - destruct (Mutex.TryEnterCriticalSection self mutex) as [[|] m1] eqn:Htry;
      eexists; (split; [reflexivity|]); cbn.
    + left. apply try_enter_owner in Htry. repeat split; [exact Htry | lia | lia].
    + right. repeat split; lia.
  - destruct (Mutex.TryEnterCriticalSection self mutex) as [[|] m1] eqn:Htry.
    + eexists; split; [reflexivity|]; cbn.
      left. apply try_enter_owner in Htry. repeat split; [exact Htry | lia | lia].
    + unfold Mutex.interval. rewrite dword_small by lia.
      destruct (IH (elapsed + 1) (tries + 1) (Mutex.Sleep others elapsed m1))
        as (r & Hr & Hcases); [lia | lia |].
      exists r; split; [exact Hr|].
      destruct Hcases as [(H0 & Ho & Hn)|(H0 & Hn & Hel)];
        [left | right]; repeat split; try assumption; lia.
  - destruct (Mutex.TryEnterCriticalSection self mutex) as [[|] m1] eqn:Htry;
      eexists; (split; [reflexivity|]); cbn.
    + left. apply try_enter_owner in Htry. repeat split; [exact Htry | lia | lia].
    + right. repeat split; lia.
Qed.

(** The loop against a section that another thread holds and never
    leaves: every attempt is refused, [timeout_ms] sleeps are made, and
    the attempt after the loop is refused too. *)
Lemma poll_busy fuel self owner timeout_ms mutex :
  Mutex.OwningThread mutex = Some owner -> owner <> self ->
  0 <= timeout_ms < 4294967296 ->
  forall elapsed tries,
  0 <= elapsed <= timeout_ms ->
  (Z.to_nat (timeout_ms - elapsed) <= fuel)%nat ->
  Mutex.poll fuel self Mutex.idle timeout_ms elapsed tries mutex
  = Some {| Mutex.tl_status := ETIMEDOUT; Mutex.tl_mutex := mutex;
            Mutex.tl_tries := tries + (timeout_ms - elapsed) + 1;
            Mutex.tl_elapsed := timeout_ms |}.
Proof.
  intros Ho Hne Ht. induction fuel as [|fuel IH]; intros elapsed tries He Hf;
    cbn [Mutex.poll]; destruct (Z.ltb_spec elapsed timeout_ms) as [Hlt|Hge];
    try lia; rewrite (try_enter_other _ _ _ Ho Hne).
  - f_equal. f_equal; lia.
  - unfold Mutex.interval, Mutex.Sleep, Mutex.idle.
    rewrite dword_small by lia.
    rewrite IH by lia. f_equal. f_equal; lia.
  - f_equal. f_equal; lia.
Qed.

(** The loop against a free section: the first attempt succeeds. *)
Lemma poll_free fuel self others timeout_ms :
  (Z.to_nat timeout_ms <= fuel)%nat ->
  Mutex.poll fuel self others timeout_ms 0 0 Mutex.unlocked
  = Some {| Mutex.tl_status := 0; Mutex.tl_mutex := Mutex.held_by self;
            Mutex.tl_tries := 1; Mutex.tl_elapsed := 0 |}.
Proof.
  intros Hf. destruct fuel as [|fuel]; cbn [Mutex.poll];
    destruct (Z.ltb_spec 0 timeout_ms) as [Hlt|Hge]; try reflexivity; lia.
Qed.

(** The status of a timed lock is [0] or [ETIMEDOUT]. *)
Lemma poll_status fuel self others timeout_ms :
  forall elapsed tries mutex r,
  Mutex.poll fuel self others timeout_ms elapsed tries mutex = Some r ->
  Mutex.tl_status r = 0 \/ Mutex.tl_status r = ETIMEDOUT.
Proof.
  induction fuel as [|fuel IH]; intros elapsed tries mutex r;
    cbn [Mutex.poll]; destruct (elapsed <? timeout_ms);
    try discriminate;
    destruct (Mutex.TryEnterCriticalSection self mutex) as [[|] m1];
    try (intros H; inversion H; cbn; auto; fail).
  apply IH.
Qed.

(** [xpthread_mutex_timedlock] returns on every input. *)
Lemma timedlock_returns self mutex abstime ft timeout_ms_decl others :
  exists r,
    Mutex.xpthread_mutex_timedlock self mutex abstime ft timeout_ms_decl others
    = Some r.
Proof.
  unfold Mutex.xpthread_mutex_timedlock. destruct abstime as [abstime|].
  - destruct (_ <=? 0); [eexists; reflexivity|].
    pose proof (dword_range timeout_ms_decl) as Hd.
    destruct (poll_spec (Z.to_nat (dword timeout_ms_decl)) self others
                (dword timeout_ms_decl) Hd 0 0 mutex) as (r & Hr & _);
      [lia | lia | eauto].
  - destruct (poll_spec (Z.to_nat INFINITE) self others INFINITE) with
      (elapsed := 0) (tries := 0) (mutex := mutex) as (r & Hr & _);
      [unfold INFINITE; lia | unfold INFINITE; lia | lia | eauto].
Qed.

(** ** Timed lock: a deadline that has passed *)

Lemma total_ms64_passed abstime now :
  Clock.normalized abstime -> Clock.normalized now ->
  Clock.at_or_before abstime now ->
  Clock.tv_sec now - Clock.tv_sec abstime < 2147483648 ->
  Mutex.total_ms64 abstime now <= 0.
Proof.
  unfold Clock.normalized, Clock.at_or_before, Mutex.total_ms64.
  destruct abstime as [s n], now as [s' n']; cbn [Clock.tv_sec Clock.tv_nsec].
  intros Hn Hn' Hle Hd.
  assert (Hs : s - s' <= 0) by lia.
  rewrite (to_int64_small (s - s'))
    by (change (2 ^ 63) with 9223372036854775808; lia).
  rewrite (to_long_small (s - s'))
    by (change (2 ^ 31) with 2147483648; lia).
  rewrite (to_long_small (n - n'))
    by (change (2 ^ 31) with 2147483648; lia).
  destruct (Z.ltb_spec (n - n') 0) as [Hneg|Hpos].
  - rewrite (to_long_small (n - n' + 1000000000))
      by (change (2 ^ 31) with 2147483648; lia).
    rewrite (to_long_small (s - s' - 1))
      by (change (2 ^ 31) with 2147483648; lia).
    rewrite Z.quot_div_nonneg by lia.
    assert (Hq : 0 <= (n - n' + 1000000000) / 1000000 < 1000).
    { split; [apply Z.div_pos; lia | apply Z.div_lt_upper_bound; lia]. }
    rewrite (to_int64_small ((s - s' - 1) * 1000))
      by (change (2 ^ 63) with 9223372036854775808; lia).
    rewrite to_int64_small
      by (change (2 ^ 63) with 9223372036854775808; lia).
    lia.
  - rewrite Z.quot_div_nonneg by lia.
    assert (Hq : 0 <= (n - n') / 1000000 < 1000).
    { split; [apply Z.div_pos; lia | apply Z.div_lt_upper_bound; lia]. }
    rewrite (to_int64_small ((s - s') * 1000))
      by (change (2 ^ 63) with 9223372036854775808; lia).
    rewrite to_int64_small
      by (change (2 ^ 63) with 9223372036854775808; lia).
    destruct Hle as [Hlt|[Heq Hnle]].
    + lia.
    + assert (n - n' = 0) as -> by lia. subst s. rewrite Z.sub_diag.
      rewrite Z.div_0_l by lia. lia.
Qed.

(** X25.  When [abstime] is a point in time in normal form, at or
    before the time the clock reads during the call and less than 2^31
    seconds before it (the range of the [long] that holds the difference
    of the seconds), [xpthread_mutex_timedlock] on the emulated backend
    returns [ETIMEDOUT] at once: it makes no [TryEnterCriticalSection]
    call, does not sleep, and leaves the mutex as it was. *)
Theorem timedlock_deadline_passed
    (self : Z) (mutex : Mutex.CRITICAL_SECTION) (abstime : Clock.timespec)
    (ft : Clock.FILETIME) (timeout_ms_decl : Z) (others : Mutex.environment) :
  Clock.normalized abstime ->
  Clock.at_or_before abstime (Clock.xpthread_get_realtime ft) ->
  Clock.tv_sec (Clock.xpthread_get_realtime ft) - Clock.tv_sec abstime
    < 2147483648 ->
  Mutex.xpthread_mutex_timedlock self mutex (Some abstime) ft
    timeout_ms_decl others
  = Some {| Mutex.tl_status := ETIMEDOUT; Mutex.tl_mutex := mutex;
            Mutex.tl_tries := 0; Mutex.tl_elapsed := 0 |}.
Proof.
  intros Hn Hle Hd. unfold Mutex.xpthread_mutex_timedlock.
  pose proof (total_ms64_passed abstime (Clock.xpthread_get_realtime ft)
                Hn (realtime_nsec_range ft) Hle Hd) as Hms.
  destruct (Z.leb_spec (Mutex.total_ms64 abstime (Clock.xpthread_get_realtime ft)) 0);
    [reflexivity | lia].
Qed.

(** A deadline one second before the clock reading, on a free mutex. *)
Lemma timedlock_deadline_passed_witness :
  Mutex.xpthread_mutex_timedlock 1 Mutex.unlocked
    (Some {| Clock.tv_sec := 1799999999; Clock.tv_nsec := 0 |})
    (Clock.filetime_of_unix 1800000000 0) 0 Mutex.idle
  = Some {| Mutex.tl_status := ETIMEDOUT; Mutex.tl_mutex := Mutex.unlocked;
            Mutex.tl_tries := 0; Mutex.tl_elapsed := 0 |}.
Proof.
  apply (timedlock_deadline_passed 1 Mutex.unlocked
           {| Clock.tv_sec := 1799999999; Clock.tv_nsec := 0 |}
           (Clock.filetime_of_unix 1800000000 0) 0 Mutex.idle).
  - unfold Clock.normalized; simpl; lia.
  - unfold Clock.at_or_before; vm_compute; left; reflexivity.
  - vm_compute; reflexivity.
Defined.

(** The normal form is needed.  A deadline written as 1800000002 s
    minus 2147483648 ns lies 0.647 s before a clock reading of
    1800000000.5 s, but the difference of the nanoseconds wraps in its
    [long], the milliseconds left come out as 3647, and the call takes
    the free mutex. *)
Example deadline_passed_needs_normal_form :
  1800000002 * 1000000000 + -2147483648
    < 1800000000 * 1000000000 + 500000000 /\
  Clock.xpthread_get_realtime (Clock.filetime_of_unix 1800000000 5000000)
    = {| Clock.tv_sec := 1800000000; Clock.tv_nsec := 500000000 |} /\
  Mutex.total_ms64 {| Clock.tv_sec := 1800000002; Clock.tv_nsec := -2147483648 |}
    (Clock.xpthread_get_realtime (Clock.filetime_of_unix 1800000000 5000000))
    = 3647 /\
  Mutex.xpthread_mutex_timedlock 1 Mutex.unlocked
    (Some {| Clock.tv_sec := 1800000002; Clock.tv_nsec := -2147483648 |})
    (Clock.filetime_of_unix 1800000000 5000000) 0 Mutex.idle
  = Some {| Mutex.tl_status := 0; Mutex.tl_mutex := Mutex.held_by 1;
            Mutex.tl_tries := 1; Mutex.tl_elapsed := 0 |}.
Proof.
  split; [lia|]. split; [vm_compute; reflexivity|].
  split; vm_compute; reflexivity.
Qed.

(** C4, the code at two deadlines that passed long ago.  The clock
    reads 1800000000 s (January 2027) and the deadline is
    [{-347483649, 0}] (December 1958), in the past by 2^31 + 1 seconds.
    The difference of the seconds, -(2^31 + 1), becomes 2^31 - 1 in the
    [long] [sec_diff] of line 282, so the milliseconds left come out
    positive, 2147483647000; the call does not return [ETIMEDOUT] but goes
    on to the attempts, and here it takes the free mutex and returns [0].
    The same happens to the deadline [{0, 0}] once the clock has passed
    2038-01-19 03:14:08 UTC. *)
Lemma timedlock_deadline_passed_long_wraps :
  (Clock.normalized {| Clock.tv_sec := -347483649; Clock.tv_nsec := 0 |} /\
   Clock.at_or_before {| Clock.tv_sec := -347483649; Clock.tv_nsec := 0 |}
     (Clock.xpthread_get_realtime (Clock.filetime_of_unix 1800000000 0)) /\
   Mutex.total_ms64 {| Clock.tv_sec := -347483649; Clock.tv_nsec := 0 |}
     (Clock.xpthread_get_realtime (Clock.filetime_of_unix 1800000000 0))
   = 2147483647000 /\
   Mutex.xpthread_mutex_timedlock 1 Mutex.unlocked
     (Some {| Clock.tv_sec := -347483649; Clock.tv_nsec := 0 |})
     (Clock.filetime_of_unix 1800000000 0) 0 Mutex.idle
   = Some {| Mutex.tl_status := 0; Mutex.tl_mutex := Mutex.held_by 1;
             Mutex.tl_tries := 1; Mutex.tl_elapsed := 0 |}) /\
  (Clock.normalized {| Clock.tv_sec := 0; Clock.tv_nsec := 0 |} /\
   Clock.at_or_before {| Clock.tv_sec := 0; Clock.tv_nsec := 0 |}
     (Clock.xpthread_get_realtime (Clock.filetime_of_unix 2147483649 0)) /\
   Mutex.xpthread_mutex_timedlock 1 Mutex.unlocked
     (Some {| Clock.tv_sec := 0; Clock.tv_nsec := 0 |})
     (Clock.filetime_of_unix 2147483649 0) 0 Mutex.idle
   = Some {| Mutex.tl_status := 0; Mutex.tl_mutex := Mutex.held_by 1;
             Mutex.tl_tries := 1; Mutex.tl_elapsed := 0 |}).
Proof.
  split; [split; [|split; [|split]] | split; [|split]].
  - unfold Clock.normalized; simpl; lia.
  - unfold Clock.at_or_before; vm_compute; left; reflexivity.
  - vm_compute; reflexivity.
  - vm_compute; reflexivity.
  - unfold Clock.normalized; simpl; lia.
  - unfold Clock.at_or_before; vm_compute; left; reflexivity.
  - vm_compute; reflexivity.
Qed.

(** Whatever [timeout_ms] holds, a call that gets past the deadline check
    makes an attempt, and on a free mutex the first attempt succeeds. *)
Lemma timedlock_future_free self abstime ft timeout_ms_decl others :
  0 < Mutex.total_ms64 abstime (Clock.xpthread_get_realtime ft) ->
  Mutex.xpthread_mutex_timedlock self Mutex.unlocked (Some abstime) ft
    timeout_ms_decl others
  = Some {| Mutex.tl_status := 0; Mutex.tl_mutex := Mutex.held_by self;
            Mutex.tl_tries := 1; Mutex.tl_elapsed := 0 |}.
Proof.
  intros Hms. unfold Mutex.xpthread_mutex_timedlock.
  destruct (Z.leb_spec (Mutex.total_ms64 abstime (Clock.xpthread_get_realtime ft)) 0);
    [lia|].
  cbv zeta. apply poll_free. lia.
Qed.

(** ** Timed lock: a deadline still to come *)

(** On the path of a non-null [abstime] nothing assigns [timeout_ms]:
    against a mutex that another thread holds throughout, the call sleeps
    for as many milliseconds as the variable happens to hold, whatever
    the deadline. *)
Lemma timedlock_future_busy self owner abstime ft timeout_ms_decl :
  owner <> self ->
  0 < Mutex.total_ms64 abstime (Clock.xpthread_get_realtime ft) ->
  Mutex.xpthread_mutex_timedlock self (Mutex.held_by owner) (Some abstime) ft
    timeout_ms_decl Mutex.idle
  = Some {| Mutex.tl_status := ETIMEDOUT; Mutex.tl_mutex := Mutex.held_by owner;
            Mutex.tl_tries := dword timeout_ms_decl + 1;
            Mutex.tl_elapsed := dword timeout_ms_decl |}.
Proof.
  intros Hne Hms. unfold Mutex.xpthread_mutex_timedlock.
  destruct (Z.leb_spec (Mutex.total_ms64 abstime (Clock.xpthread_get_realtime ft)) 0);
    [lia|].
  pose proof (dword_range timeout_ms_decl) as Hd. cbv zeta.
  rewrite (poll_busy _ self owner (dword timeout_ms_decl) (Mutex.held_by owner))
    by (reflexivity || lia).
  f_equal. f_equal. lia.
Qed.

(** The result of the call does not depend on a deadline that is still to
    come. *)
Lemma timedlock_future_any_deadline self mutex a1 a2 ft timeout_ms_decl others :
  0 < Mutex.total_ms64 a1 (Clock.xpthread_get_realtime ft) ->
  0 < Mutex.total_ms64 a2 (Clock.xpthread_get_realtime ft) ->
  Mutex.xpthread_mutex_timedlock self mutex (Some a1) ft timeout_ms_decl others
  = Mutex.xpthread_mutex_timedlock self mutex (Some a2) ft timeout_ms_decl others.
Proof.
  intros H1 H2. unfold Mutex.xpthread_mutex_timedlock.
  destruct (Z.leb_spec (Mutex.total_ms64 a1 (Clock.xpthread_get_realtime ft)) 0);
    [lia|].
  destruct (Z.leb_spec (Mutex.total_ms64 a2 (Clock.xpthread_get_realtime ft)) 0);
    [lia|].
  reflexivity.
Qed.

(** C2, the code at a deadline 5 ms ahead.  The clock reads
    1800000000 s; [abstime] is 5 ms later, so 5 ms remain; thread 2 holds
    the mutex throughout.  The call of thread 1 does not poll for 5 ms: it
    sleeps [dword timeout_ms_decl] times, for whatever value the
    unassigned [timeout_ms] holds, makes one attempt more and returns
    [ETIMEDOUT]. *)
Theorem timedlock_polls_unassigned_timeout (timeout_ms_decl : Z) :
  Mutex.total_ms64 {| Clock.tv_sec := 1800000000; Clock.tv_nsec := 5000000 |}
    (Clock.xpthread_get_realtime (Clock.filetime_of_unix 1800000000 0)) = 5 /\
  Mutex.xpthread_mutex_timedlock 1 (Mutex.held_by 2)
    (Some {| Clock.tv_sec := 1800000000; Clock.tv_nsec := 5000000 |})
    (Clock.filetime_of_unix 1800000000 0) timeout_ms_decl Mutex.idle
  = Some {| Mutex.tl_status := ETIMEDOUT; Mutex.tl_mutex := Mutex.held_by 2;
            Mutex.tl_tries := dword timeout_ms_decl + 1;
            Mutex.tl_elapsed := dword timeout_ms_decl |}.
Proof.
  assert (Hms : Mutex.total_ms64
                  {| Clock.tv_sec := 1800000000; Clock.tv_nsec := 5000000 |}
                  (Clock.xpthread_get_realtime (Clock.filetime_of_unix 1800000000 0))
                = 5) by (vm_compute; reflexivity).
  split; [exact Hms|].
  apply timedlock_future_busy; [lia | rewrite Hms; lia].
Qed.

(** With [timeout_ms] holding [0] the call gives up after a single
    attempt, 5 ms before the deadline. *)
Example timedlock_5ms_gives_up_at_once :
  Mutex.xpthread_mutex_timedlock 1 (Mutex.held_by 2)
    (Some {| Clock.tv_sec := 1800000000; Clock.tv_nsec := 5000000 |})
    (Clock.filetime_of_unix 1800000000 0) 0 Mutex.idle
  = Some {| Mutex.tl_status := ETIMEDOUT; Mutex.tl_mutex := Mutex.held_by 2;
            Mutex.tl_tries := 1; Mutex.tl_elapsed := 0 |}.
Proof. vm_compute. reflexivity. Qed.

(** With [timeout_ms] holding [1000] it polls for a second, long after
    the deadline. *)
Example timedlock_5ms_polls_a_second :
  Mutex.xpthread_mutex_timedlock 1 (Mutex.held_by 2)
    (Some {| Clock.tv_sec := 1800000000; Clock.tv_nsec := 5000000 |})
    (Clock.filetime_of_unix 1800000000 0) 1000 Mutex.idle
  = Some {| Mutex.tl_status := ETIMEDOUT; Mutex.tl_mutex := Mutex.held_by 2;
            Mutex.tl_tries := 1001; Mutex.tl_elapsed := 1000 |}.
Proof. vm_compute. reflexivity. Qed.

(** ** Timed lock: no deadline *)

(** X26.  With a null [abstime] the call computes no deadline (its
    result depends neither on the clock nor on what [timeout_ms] held
    before) and polls with [timeout_ms = INFINITE], that is 2^32 - 1.  It
    returns [0] only when the caller owns the mutex, after at most 2^32
    attempts; it returns [ETIMEDOUT] only when all 2^32 attempts were
    refused, after 2^32 - 1 sleeps of one millisecond. *)
Theorem timedlock_null_abstime
    (self : Z) (mutex : Mutex.CRITICAL_SECTION) (others : Mutex.environment) :
  exists r,
    (forall ft timeout_ms_decl,
       Mutex.xpthread_mutex_timedlock self mutex None ft timeout_ms_decl others
       = Some r) /\
    ((Mutex.tl_status r = 0 /\
      Mutex.OwningThread (Mutex.tl_mutex r) = Some self /\
      1 <= Mutex.tl_tries r <= 4294967296)
     \/
     (Mutex.tl_status r = ETIMEDOUT /\
      Mutex.tl_tries r = 4294967296 /\
      Mutex.tl_elapsed r = 4294967295)).
Proof.
  destruct (poll_spec (Z.to_nat INFINITE) self others INFINITE) with
    (elapsed := 0) (tries := 0) (mutex := mutex) as (r & Hr & Hcases);
    [unfold INFINITE; lia | unfold INFINITE; lia | lia |].
  exists r. split.
  - intros ft timeout_ms_decl. exact Hr.
  - unfold INFINITE in Hcases.
    destruct Hcases as [(H0 & Ho & Hn)|(H0 & Hn & Hel)]; [left | right];
      repeat split; try assumption; lia.
Qed.

(** C8, the code against a mutex that is never released.  Thread 2
    holds the mutex and never leaves it; thread 1 calls with a null
    [abstime].  The call does not retry for ever: line 297 counts
    [INFINITE] as the bound 2^32 - 1, and after 4294967295 sleeps and
    4294967296 refused attempts the call returns [ETIMEDOUT]. *)
Lemma timedlock_null_abstime_times_out :
  Mutex.xpthread_mutex_timedlock 1 (Mutex.held_by 2) None
    (Clock.filetime_of_unix 1800000000 0) 0 Mutex.idle
  = Some {| Mutex.tl_status := ETIMEDOUT; Mutex.tl_mutex := Mutex.held_by 2;
            Mutex.tl_tries := 4294967296; Mutex.tl_elapsed := 4294967295 |}.
Proof.
  unfold Mutex.xpthread_mutex_timedlock. cbv zeta.
  rewrite (poll_busy _ 1 2 INFINITE (Mutex.held_by 2));
    [reflexivity | reflexivity | lia | unfold INFINITE; lia
     | unfold INFINITE; lia | lia].
Qed.

(** ** Priority ceiling and robustness *)

(** C6, as the code has it.  On the emulated backend
    [xpthread_mutex_getprioceiling] reports success and a ceiling of zero
    when its out-pointer is not null, and returns [EINVAL] without writing
    anything when it is null; [xpthread_mutex_setprioceiling] always
    reports success and writes zero through [old_ceiling] when that is not
    null; [xpthread_mutex_consistent] always reports success.  None of
    them changes the mutex. *)
Theorem prioceiling_and_consistent
    (mutex : Mutex.CRITICAL_SECTION) (prioceiling cell : Z) :
  Mutex.xpthread_mutex_getprioceiling mutex (Some cell) = (0, Some 0, mutex) /\
  Mutex.xpthread_mutex_getprioceiling mutex None = (EINVAL, None, mutex) /\
  Mutex.xpthread_mutex_setprioceiling mutex prioceiling (Some cell)
    = (0, Some 0, mutex) /\
  Mutex.xpthread_mutex_setprioceiling mutex prioceiling None
    = (0, None, mutex) /\
  Mutex.xpthread_mutex_consistent mutex = (0, mutex).
Proof. repeat split. Qed.

(** C6, as stated, fails: a call of [xpthread_mutex_getprioceiling] with a
    null [prioceiling] is reported as the error [EINVAL]. *)
Lemma getprioceiling_null_is_error :
  (Mutex.xpthread_mutex_getprioceiling Mutex.unlocked None).1.1 = EINVAL /\
  EINVAL <> 0.
Proof. split; [reflexivity | discriminate]. Qed.

(** ** Once-initializer *)

(** C9, as the code has it.  On a control whose initialization has not
    completed, [xpthread_once] with a null initializer returns [-1], runs
    no initializer and leaves the control as it was, because
    [once_wrapper] answers [FALSE]; with a non-null initializer it runs
    that initializer once, completes the control and returns [0].  On a
    completed control [once_wrapper] is not called, and the call returns
    [0] for every initializer, null or not. *)
Theorem once_null_and_engaged (init_routine : Z) (calls : list Z) :
  Once.xpthread_once Once.INIT_ONCE_STATIC_INIT 0 calls
    = (-1, Once.INIT_ONCE_STATIC_INIT, calls) /\
  (init_routine <> 0 ->
   Once.xpthread_once Once.INIT_ONCE_STATIC_INIT init_routine calls
     = (0, Once.INIT_ONCE_COMPLETED, calls ++ [init_routine])) /\
  Once.xpthread_once Once.INIT_ONCE_COMPLETED init_routine calls
    = (0, Once.INIT_ONCE_COMPLETED, calls).
Proof.
  repeat split. intros Hne.
  unfold Once.xpthread_once, Once.InitOnceExecuteOnce, Once.once_wrapper.
  cbn [Once.fn]. destruct (Z.eqb_spec init_routine 0); [contradiction|reflexivity].
Qed.

Lemma once_null_and_engaged_witness :
  Once.xpthread_once Once.INIT_ONCE_STATIC_INIT 256 []
  = (0, Once.INIT_ONCE_COMPLETED, [256]).
Proof.
  apply (proj1 (proj2 (once_null_and_engaged 256 []))). discriminate.
Defined.

(** C9, as stated, fails.  After a first call has run the initializer at
    address 256, a second call on the same control with a null
    initializer returns [0], not [-1]. *)
Lemma once_null_after_completion :
  let '(status1, control1, calls1) :=
    Once.xpthread_once Once.INIT_ONCE_STATIC_INIT 256 [] in
  status1 = 0 /\
  Once.xpthread_once control1 0 calls1 = (0, Once.INIT_ONCE_COMPLETED, [256]).
Proof. split; reflexivity. Qed.

(** The initializer of the test program runs once in two calls. *)
Example once_twice :
  let '(_, control1, calls1) :=
    Once.xpthread_once Once.INIT_ONCE_STATIC_INIT 256 [] in
  Once.xpthread_once control1 256 calls1 = (0, Once.INIT_ONCE_COMPLETED, [256]).
Proof. reflexivity. Qed.

(** ** Cancellation *)

(** C10.  On the emulated backend [xpthread_cancel(th)] returns [EINVAL]
    when [th] is null and [0] when it is not; in both cases the call
    returns (it neither waits nor ends the caller) and leaves the process
    as it was. *)
Theorem cancel_status (th self : Z) (p : Thread.process) :
  Thread.xpthread_cancel th self p
  = Thread.Ret (if th =? 0 then EINVAL else 0) p.
Proof. unfold Thread.xpthread_cancel. destruct (th =? 0); reflexivity. Qed.

(** ** The context record *)

Lemma with_heap_same p c a :
  Thread.heap p !! a = Some c ->
  Thread.with_heap
    (<[a := {| Thread.start_routine := Thread.start_routine c;
               Thread.arg := Thread.arg c;
               Thread.cancel_requested := Thread.cancel_requested c;
               Thread.retval := Thread.retval c |}]> (Thread.heap p)) p = p.
Proof.
  intros Hc. destruct c as [s a' cr rv]; cbn.
  rewrite insert_id by exact Hc. destruct p; reflexivity.
Qed.

Lemma testcancel_outcome self p :
  Thread.xpthread_testcancel self p = Thread.Ret tt p \/
  Thread.xpthread_testcancel self p = Thread.EndThread 0 p \/
  Thread.xpthread_testcancel self p = Thread.Fault.
Proof.
  unfold Thread.xpthread_testcancel, Thread.InterlockedCompareExchange,
    Thread._endthreadex.
  destruct (Thread.get_self_ctx self p =? 0); [left; reflexivity|].
  destruct (Thread.heap p !! Thread.get_self_ctx self p) as [c|] eqn:Hc;
    [|right; right; reflexivity].
  replace (if Thread.cancel_requested c =? 0 then 0 else Thread.cancel_requested c)
    with (Thread.cancel_requested c)
    by (destruct (Z.eqb_spec (Thread.cancel_requested c) 0); congruence).
  rewrite (with_heap_same p c _ Hc).
  destruct (Thread.cancel_requested c =? 0); [left | right; left]; reflexivity.
Qed.

Lemma testcancel_ends_iff self p :
  ends_thread (Thread.xpthread_testcancel self p) <-> pending self p.
Proof.
  unfold ends_thread, pending, Thread.xpthread_testcancel,
    Thread.InterlockedCompareExchange, Thread._endthreadex.
  destruct (Z.eqb_spec (Thread.get_self_ctx self p) 0) as [H0|H0].
  - split; [intros (code & p' & H); discriminate
           | intros (c & Hne & _); contradiction].
  - destruct (Thread.heap p !! Thread.get_self_ctx self p) as [c|] eqn:Hc.
    + destruct (Z.eqb_spec (Thread.cancel_requested c) 0) as [Hf|Hf].
      * split; [intros (code & p' & H); discriminate|].
        intros (c' & _ & Hc' & Hne). congruence.
      * split; [|intros _; eauto].
        intros _. exists c. auto.
    + split; [intros (code & p' & H); discriminate|].
      intros (c' & _ & Hc' & _). discriminate.
Qed.

(** The two calls of the cancellation channel, in every process.
    [xpthread_cancel] returns [EINVAL] for a null handle and [0] for any
    other, with the process unchanged: it sets no pending-request flag.
    [xpthread_testcancel] ends the calling thread if and only if the
    caller has a context record whose [cancel_requested] flag is set; the
    cancellation state that [xpthread_setcancelstate] keeps has no part in
    it; and the call never changes the process. *)
Lemma cancel_channel (self : Z) (p : Thread.process) :
  (forall th caller,
     Thread.xpthread_cancel th caller p
     = Thread.Ret (if th =? 0 then EINVAL else 0) p) /\
  (ends_thread (Thread.xpthread_testcancel self p) <-> pending self p) /\
  (forall states,
     ends_thread (Thread.xpthread_testcancel self (Thread.with_cancel_state states p))
     <-> ends_thread (Thread.xpthread_testcancel self p)) /\
  (Thread.xpthread_testcancel self p = Thread.Ret tt p \/
   Thread.xpthread_testcancel self p = Thread.EndThread 0 p \/
   Thread.xpthread_testcancel self p = Thread.Fault).
Proof.
  split; [|split; [|split]].
  - intros th caller. unfold Thread.xpthread_cancel.
    destruct (th =? 0); reflexivity.
  - apply testcancel_ends_iff.
  - intros states. rewrite !testcancel_ends_iff. reflexivity.
  - apply testcancel_outcome.
Qed.

(** [xpthread_setcancelstate] writes the state the third part of
    [cancel_channel] speaks of, and nothing else. *)
Lemma setcancelstate_process state oldstate self p :
  exists old,
    Thread.xpthread_setcancelstate state oldstate self p
    = Thread.Ret (0, old)
        (Thread.with_cancel_state (<[self := state]> (Thread.cancel_state p)) p).
Proof. eexists; reflexivity. Qed.

(** C3, the code on the sequences of the claim.  [main] creates a
    thread and requests its cancellation before the thread takes a step;
    the request returns [0].  The claim has the request set the thread's
    pending-request flag, and the thread end at its next checkpoint while
    its state is enabled.  In the code the flag is still [0] after the
    request, and the thread, whose state is enabled, passes its
    checkpoint and returns [v], which [thread_wrapper] stores in its
    record.  The same happens to a thread that disables cancellation,
    passes a checkpoint, enables cancellation again and passes a second
    checkpoint: it is to end there, and it returns [v]. *)
Theorem cancel_request_is_lost (v : Z) :
  Scenario.cancel_then_checkpoint v = Some (0, 0, XPTHREAD_CANCEL_ENABLE, v) /\
  cancel_then_run (Scenario.checkpoint_then_returns v) = Some (0, 0, v) /\
  cancel_then_run (reenables_then_returns v) = Some (0, 0, v).
Proof. split; [|split]; vm_compute; reflexivity. Qed.

(** The request of the test value [7]. *)
Example cancel_request_is_not_recorded :
  Scenario.cancel_then_checkpoint 7 = Some (0, 0, XPTHREAD_CANCEL_ENABLE, 7).
Proof. vm_compute. reflexivity. Qed.

(** ** Exit and join *)

(** [xpthread_exit] hands its argument, cut to 32 bits, to
    [_endthreadex] and leaves the process, the context records included,
    as it was. *)
Lemma exit_outcome v self p :
  Thread.xpthread_exit v self p
  = Thread.EndThread (if v =? 0 then 0 else dword v) p.
Proof. reflexivity. Qed.

(** A join made by a thread that has no context record leaves the cell
    behind [retval] as it was. *)
Lemma join_without_context thread r self p :
  Thread.get_self_ctx self p = 0 ->
  Thread.xpthread_join thread (Some r) self p = Thread.Blocked \/
  exists p', Thread.xpthread_join thread (Some r) self p = Thread.Ret (0, Some r) p'.
Proof.
  intros H0.
  unfold Thread.xpthread_join, Thread.bind, Thread.WaitForSingleObject,
    Thread.GetExitCodeThread, Thread.CloseHandle, Thread.ret.
  repeat join_step; try (left; reflexivity);
    right; rewrite H0; change (0 =? 0) with true; cbv beta iota;
    repeat join_step; eexists; reflexivity.
Qed.

(** A join made by a thread that has a context record stores the
    [retval] slot of that record, the caller's own. *)
Lemma join_with_context thread r self p c :
  Thread.get_self_ctx self p <> 0 ->
  Thread.heap p !! Thread.get_self_ctx self p = Some c ->
  Thread.xpthread_join thread (Some r) self p = Thread.Blocked \/
  exists p', Thread.xpthread_join thread (Some r) self p
             = Thread.Ret (0, Some (Thread.retval c)) p'.
Proof.
  intros Hne Hc.
  unfold Thread.xpthread_join, Thread.bind, Thread.WaitForSingleObject,
    Thread.GetExitCodeThread, Thread.CloseHandle, Thread.ret.
  apply Z.eqb_neq in Hne.
  repeat join_step; try (left; reflexivity);
    right; rewrite Hne, Hc; cbv beta iota;
    repeat join_step; eexists; reflexivity.
Qed.

(** C1, the code on the sequence of the claim.  [main] creates a thread
    whose entry function calls [xpthread_exit(v)], the thread ends, and
    [main] joins it with [retval] pointing to a cell that holds [r0].
    The join returns [0] and the cell still holds [r0]: [v] went to
    [_endthreadex] only, and the join reads the record of the calling
    thread, of which [main] has none.  The same holds when the entry
    function returns [v]. *)
Theorem join_does_not_deliver (v r0 : Z) :
  Scenario.create_run_join (Scenario.exits_with v) r0 = Some (0, r0) /\
  Scenario.create_run_join (Scenario.returns v) r0 = Some (0, r0).
Proof.
  split.
  - unfold Scenario.create_run_join, Scenario.exits_with, Thread.run_thread,
      Thread.thread_wrapper.
    cbn. reflexivity.
  - vm_compute. reflexivity.
Qed.

(** The claim's value [v = 42] against a cell that holds [0]: the join
    leaves [0]. *)
Example join_after_exit_42 :
  Scenario.create_run_join (Scenario.exits_with 42) 0 = Some (0, 0).
Proof. vm_compute. reflexivity. Qed.

(** When the joining thread was itself created by [xpthread_create], the
    join stores the caller's own slot, which is still zero while the
    caller runs: here the cell held [5], the joined thread exited with
    [42], and the join stores [0]. *)
Example join_from_created_thread :
  Scenario.nested_join (Scenario.exits_with 42) 5 = Some 0 /\
  Scenario.nested_join (Scenario.returns 42) 5 = Some 0.
Proof. split; vm_compute; reflexivity. Qed.

(** ** No call sets the pending-request flag *)

Lemma no_request_boot : no_request Thread.boot.
Proof. intros a c H. cbn in H. rewrite lookup_empty in H. discriminate. Qed.

Lemma no_request_insert p a c :
  no_request p -> Thread.cancel_requested c = 0 ->
  no_request (Thread.with_heap (<[a := c]> (Thread.heap p)) p).
Proof.
  intros Hp Hc a' c'. cbn. rewrite lookup_insert.
  destruct (decide (a = a')); [intros H; inversion H; subst; exact Hc|apply Hp].
Qed.

Lemma no_request_delete p a :
  no_request p -> no_request (Thread.with_heap (delete a (Thread.heap p)) p).
Proof.
  intros Hp a' c'. cbn. rewrite lookup_delete.
  destruct (decide (a = a')); [discriminate|apply Hp].
Qed.

Lemma keeps_ret {A} (a : A) : keeps_no_request (Thread.ret a).
Proof. intros self p Hp. exact Hp. Qed.

Lemma keeps_bind {A B} (m : Thread.thread_m A) (k : A -> Thread.thread_m B) :
  keeps_no_request m -> (forall a, keeps_no_request (k a)) ->
  keeps_no_request (Thread.bind m k).
Proof.
  intros Hm Hk self p Hp. unfold Thread.bind. specialize (Hm self p Hp).
  destruct (m self p) as [a p'|code p'| |]; try exact Hm; try exact I.
  apply Hk, Hm.
Qed.

Lemma keeps_calloc ok : keeps_no_request (Thread.calloc ok).
Proof.
  intros self p Hp. unfold Thread.calloc. destruct ok; [|exact Hp].
  intros a c. cbn. rewrite lookup_insert.
  destruct (decide (Thread.next p = a));
    [intros H; inversion H; reflexivity | apply Hp].
Qed.

Lemma keeps_free a : keeps_no_request (Thread.free a).
Proof. intros self p Hp. apply no_request_delete, Hp. Qed.

Lemma keeps_beginthreadex ok a : keeps_no_request (Thread._beginthreadex ok a).
Proof. intros self p Hp. unfold Thread._beginthreadex. destruct ok; exact Hp. Qed.

Lemma keeps_CloseHandle h : keeps_no_request (Thread.CloseHandle h).
Proof.
  intros self p Hp. unfold Thread.CloseHandle.
  destruct (decide (h ∈ Thread.open_handles p)); exact Hp.
Qed.

Lemma keeps_WaitForSingleObject h : keeps_no_request (Thread.WaitForSingleObject h).
Proof.
  intros self p Hp. unfold Thread.WaitForSingleObject.
  destruct (h =? Thread.GetCurrentThread); [exact I|].
  destruct (decide (h ∈ Thread.open_handles p)); [|exact Hp].
  destruct (Thread.threads p !! h) as [[a [code|]]|]; try exact Hp; exact I.
Qed.

Lemma keeps_GetExitCodeThread h : keeps_no_request (Thread.GetExitCodeThread h).
Proof.
  intros self p Hp. unfold Thread.GetExitCodeThread.
  destruct (Thread.threads p !! h) as [[a [code|]]|]; exact Hp.
Qed.

Lemma keeps_create calloc_ok begin_ok thread attr start_routine arg :
  keeps_no_request
    (Thread.xpthread_create calloc_ok begin_ok thread attr start_routine arg).
Proof.
  unfold Thread.xpthread_create.
  apply keeps_bind; [apply keeps_calloc|]. intros ctx.
  destruct (ctx =? 0); [apply keeps_ret|].
  apply keeps_bind.
  - intros self p Hp.
    destruct (Thread.heap p !! ctx) as [c|] eqn:Hc; [|exact I].
    apply no_request_insert; [exact Hp|]. cbn. exact (Hp _ _ Hc).
  - intros _. apply keeps_bind; [apply keeps_beginthreadex|]. intros h.
    destruct (h =? 0).
    + apply keeps_bind; [apply keeps_free|]. intros _. apply keeps_ret.
    + destruct thread; [apply keeps_ret | intros self p Hp; exact I].
Qed.

Lemma keeps_join thread retval : keeps_no_request (Thread.xpthread_join thread retval).
Proof.
  unfold Thread.xpthread_join.
  apply keeps_bind; [apply keeps_WaitForSingleObject|]. intros _.
  apply keeps_bind; [apply keeps_GetExitCodeThread|]. intros code.
  apply keeps_bind.
  - intros self p Hp. destruct retval; [|exact Hp].
    destruct (Thread.get_self_ctx self p =? 0); [exact Hp|].
    destruct (Thread.heap p !! Thread.get_self_ctx self p); [exact Hp|exact I].
  - intros r. apply keeps_bind; [apply keeps_CloseHandle|]. intros _.
    apply keeps_ret.
Qed.

Lemma keeps_detach thread : keeps_no_request (Thread.xpthread_detach thread).
Proof.
  unfold Thread.xpthread_detach.
  apply keeps_bind; [apply keeps_CloseHandle|]. intros b. apply keeps_ret.
Qed.

Lemma keeps_cancel th : keeps_no_request (Thread.xpthread_cancel th).
Proof. unfold Thread.xpthread_cancel. destruct (th =? 0); apply keeps_ret. Qed.

Lemma keeps_setcancelstate state oldstate :
  keeps_no_request (Thread.xpthread_setcancelstate state oldstate).
Proof. intros self p Hp. exact Hp. Qed.

Lemma keeps_setcanceltype type oldtype :
  keeps_no_request (Thread.xpthread_setcanceltype type oldtype).
Proof. intros self p Hp. exact Hp. Qed.

Lemma keeps_exit v : keeps_no_request (Thread.xpthread_exit v).
Proof. intros self p Hp. exact Hp. Qed.

Lemma keeps_testcancel : keeps_no_request Thread.xpthread_testcancel.
Proof.
  intros self p Hp.
  destruct (testcancel_outcome self p) as [H|[H|H]]; rewrite H; auto.
Qed.

(** A thread whose code keeps the flags clear ends with the flags clear. *)
Lemma keeps_thread_wrapper (text : Thread.image) arg :
  (forall f a, keeps_no_request (text f a)) ->
  keeps_no_request (Thread.thread_wrapper text arg).
Proof.
  intros Htext self p Hp. unfold Thread.thread_wrapper.
  set (p1 := Thread.with_self_ctx _ p).
  assert (Hp1 : no_request p1) by exact Hp.
  destruct (Thread.heap p1 !! arg) as [c|]; [|exact I].
  specialize (Htext (Thread.start_routine c) (Thread.arg c) self p1 Hp1).
  destruct (text _ _ self p1) as [r p2|code p2| |]; try exact Htext; try exact I.
  destruct (Thread.heap p2 !! arg) as [c2|] eqn:Hc2; [|exact I].
  unfold Thread._endthreadex.
  apply no_request_insert; [exact Htext|]. cbn. exact (Htext _ _ Hc2).
Qed.

(** While the flags are clear a checkpoint ends no thread. *)
Lemma testcancel_without_request self p :
  no_request p -> ~ ends_thread (Thread.xpthread_testcancel self p).
Proof.
  intros Hp Hends. apply testcancel_ends_iff in Hends.
  destruct Hends as (c & _ & Hc & Hne). apply Hne. exact (Hp _ _ Hc).
Qed.

(** ** The status values *)

Lemma returns_ret {A} (P : A -> Prop) a : P a -> returns_in P (Thread.ret a).
Proof. intros H self p. exact H. Qed.

Lemma returns_bind {A B} (P : B -> Prop) (m : Thread.thread_m A) k :
  (forall a, returns_in P (k a)) -> returns_in P (Thread.bind m k).
Proof.
  intros Hk self p. unfold Thread.bind.
  destruct (m self p) as [a p'|code p'| |]; try exact I. apply Hk.
Qed.

Lemma returns_status {A} (P : Z -> Prop) (status : A -> Z) m self p st :
  returns_in (fun a => P (status a)) m ->
  Interface.status_of_result status (m self p) = Some st -> P st.
Proof.
  intros Hm. specialize (Hm self p). unfold Interface.status_of_result.
  destruct (m self p); try discriminate. intros H; inversion H; subst. exact Hm.
Qed.

Lemma create_status calloc_ok begin_ok thread attr start_routine arg :
  returns_in (fun r => r.1 = 0 \/ r.1 = ENOMEM \/ r.1 = EAGAIN)
    (Thread.xpthread_create calloc_ok begin_ok thread attr start_routine arg).
Proof.
  unfold Thread.xpthread_create.
  apply returns_bind; intros ctx.
  destruct (ctx =? 0); [apply returns_ret; cbn; auto|].
  apply returns_bind; intros _. apply returns_bind; intros h.
  destruct (h =? 0).
  - apply returns_bind; intros _. apply returns_ret; cbn; auto.
  - destruct thread; [apply returns_ret; cbn; auto | intros self p; exact I].
Qed.

Lemma join_status thread retval :
  returns_in (fun r => r.1 = 0) (Thread.xpthread_join thread retval).
Proof.
  unfold Thread.xpthread_join.
  do 4 (apply returns_bind; intros ?). apply returns_ret. reflexivity.
Qed.

Lemma detach_status thread :
  returns_in (fun st => st = 0 \/ st = -1) (Thread.xpthread_detach thread).
Proof.
  unfold Thread.xpthread_detach. apply returns_bind; intros [|];
    apply returns_ret; auto.
Qed.

Lemma once_status once_control init_routine calls :
  (Once.xpthread_once once_control init_routine calls).1.1 = 0 \/
  (Once.xpthread_once once_control init_routine calls).1.1 = -1.
Proof.
  unfold Once.xpthread_once, Once.InitOnceExecuteOnce, Once.once_wrapper.
  destruct once_control; [|left; reflexivity].
  cbn [Once.fn]. destruct (init_routine =? 0); [right | left]; reflexivity.
Qed.

(** A null initializer on a fresh control, and a handle that is not
    open: the two calls that return [-1]. *)
Lemma once_and_detach_minus_one :
  Interface.returned_status
    (Interface.call_once Once.INIT_ONCE_STATIC_INIT 0 []) = Some (-1) /\
  Interface.returned_status
    (Interface.call_detach 4097 Thread.main_thread Thread.boot) = Some (-1).
Proof. split; vm_compute; reflexivity. Qed.

(** C5, as the code has it.  Every status-returning call of the
    interface on the emulated backend that returns, returns one of [0],
    [ETIMEDOUT], [EBUSY], [EINVAL], [ENOMEM], [EAGAIN] or [-1]; the last
    is what [xpthread_once] and [xpthread_detach] return when the platform
    call behind them fails. *)
Theorem status_in_returned_set (c : Interface.api_call) (st : Z) :
  Interface.returned_status c = Some st -> Interface.returned_set st.
Proof.
  unfold Interface.returned_set.
  destruct c; cbn [Interface.returned_status].
  - intros H; inversion H.
    destruct (once_status once_control init_routine calls) as [->| ->]; auto 10.
  - intros H.
    apply (returns_status (fun st => st = 0 \/ st = ENOMEM \/ st = EAGAIN)) in H;
      [|apply create_status].
    destruct H as [->|[->| ->]]; auto 10.
  - intros H.
    apply (returns_status (fun st => st = 0)) in H; [|apply join_status]. auto.
  - intros H.
    apply (returns_status (fun st => st = 0 \/ st = -1) id) in H;
      [|apply detach_status].
    destruct H as [->| ->]; auto 10.
  - intros H; inversion H; auto.
  - intros H; inversion H; auto.
  - unfold Thread.xpthread_cancel. destruct (th =? 0); intros H; inversion H; auto 10.
  - intros H; inversion H. unfold Mutex.xpthread_mutex_init.
    destruct spin_ok; cbn; auto 10.
  - intros H; inversion H; auto.
  - unfold Mutex.xpthread_mutex_lock.
    destruct (Mutex.EnterCriticalSection self mutex); [|discriminate].
    intros H; inversion H; auto.
  - intros H; inversion H; auto.
  - intros H; inversion H. unfold Mutex.xpthread_mutex_trylock.
    destruct (Mutex.TryEnterCriticalSection self mutex) as [[|] m]; cbn; auto 10.
  - destruct (Mutex.xpthread_mutex_timedlock self mutex abstime ft
                timeout_ms_decl others) as [r|] eqn:Hr; [|discriminate].
    intros H; inversion H; subst st. clear H.
    unfold Mutex.xpthread_mutex_timedlock in Hr.
    destruct abstime as [abstime|].
    + destruct (_ <=? 0).
      * inversion Hr; cbn; auto.
      * apply poll_status in Hr. destruct Hr as [->| ->]; auto.
    + apply poll_status in Hr. destruct Hr as [->| ->]; auto.
  - intros H; inversion H. destruct prioceiling; cbn; auto 10.
  - intros H; inversion H; auto.
  - intros H; inversion H; auto.
Qed.

Lemma status_in_returned_set_witness :
  Interface.returned_set (-1).
Proof.
  apply (status_in_returned_set
           (Interface.call_once Once.INIT_ONCE_STATIC_INIT 0 []) (-1)).
  vm_compute. reflexivity.
Defined.

(** C5, as stated, fails.  [xpthread_once] with a null initializer on a
    fresh control returns [-1], and [-1] is none of [0], [ETIMEDOUT],
    [EBUSY], [EINVAL], [ENOMEM], [EAGAIN] and the codes for an unsupported
    operation. *)
Lemma once_status_outside_named_set :
  Interface.returned_status
    (Interface.call_once Once.INIT_ONCE_STATIC_INIT 0 []) = Some (-1) /\
  ~ Interface.named_status (-1).
Proof.
  split; [vm_compute; reflexivity|].
  unfold Interface.named_status, ETIMEDOUT, EBUSY, EINVAL, ENOMEM, EAGAIN,
    ENOTSUP, ENOSYS.
  lia.
Qed.

(** * Further properties *)

(** ** Time source: the conversion *)

Lemma QuadPart_ticks ft :
  Clock.QuadPart (Clock.dwLowDateTime ft) (Clock.dwHighDateTime ft) = ticks_of ft.
Proof.
  unfold Clock.QuadPart, ticks_of.
  pose proof (dword_range (Clock.dwHighDateTime ft)) as Hh.
  pose proof (dword_range (Clock.dwLowDateTime ft)) as Hl.
  set (h := dword (Clock.dwHighDateTime ft)) in *.
  set (l := dword (Clock.dwLowDateTime ft)) in *.
  rewrite Z.shiftl_mul_pow2 by lia.
  symmetry. apply Z.add_nocarry_lor.
  apply Z.bits_inj'. intros n Hn.
  rewrite Z.land_spec, Z.bits_0.
  destruct (Z.lt_ge_cases n 32) as [Hlt|Hge].
  - rewrite Z.mul_pow2_bits_low by lia. reflexivity.
  - replace (Z.testbit l n) with false; [apply andb_false_r|].
    symmetry. destruct (Z.eq_dec l 0) as [->|Hl0]; [apply Z.bits_0|].
    apply Z.bits_above_log2; [lia|].
    apply Z.log2_lt_pow2; [lia|].
    apply Z.lt_le_trans with (2 ^ 32); [lia|].
    apply Z.pow_le_mono_r; lia.
Qed.

Lemma ticks_of_range ft : 0 <= ticks_of ft < 2 ^ 64.
Proof.
  unfold ticks_of.
  pose proof (dword_range (Clock.dwHighDateTime ft)).
  pose proof (dword_range (Clock.dwLowDateTime ft)).
  change (2 ^ 64) with 18446744073709551616. change (2 ^ 32) with 4294967296.
  lia.
Qed.

(** The two fields of the result in terms of the tick count [t] since the
    Unix epoch, whenever the clock is not before 1970. *)
Lemma realtime_fields ft :
  epoch_ticks <= ticks_of ft ->
  Clock.xpthread_get_realtime ft
  = {| Clock.tv_sec := (ticks_of ft - epoch_ticks) / 10000000;
       Clock.tv_nsec := ((ticks_of ft - epoch_ticks) mod 10000000) * 100 |}.
Proof.
  intros Hge. unfold Clock.xpthread_get_realtime.
  rewrite QuadPart_ticks. pose proof (ticks_of_range ft) as Hr.
  change (2 ^ 64) with 18446744073709551616 in Hr. unfold epoch_ticks in *.
  set (q := ticks_of ft) in *.
  rewrite (to_uint64_small (q - 116444736000000000))
    by (change (2 ^ 64) with 18446744073709551616; lia).
  set (t := q - 116444736000000000).
  assert (Ht : 0 <= t < 18446744073709551616) by (unfold t; lia).
  assert (Hm : 0 <= t mod 10000000 < 10000000)
    by (apply Z.mod_pos_bound; reflexivity).
  assert (Hq : 0 <= t / 10000000 < 1844674407371)
    by (split; [apply Z.div_pos; lia | apply Z.div_lt_upper_bound; lia]).
  rewrite to_int64_small by (change (2 ^ 63) with 9223372036854775808; lia).
  rewrite to_uint64_small by (change (2 ^ 64) with 18446744073709551616; lia).
  rewrite to_long_small by (change (2 ^ 31) with 2147483648; lia).
  reflexivity.
Qed.

(** X1.  For every clock reading at or after 1970-01-01 the [timespec]
    that [xpthread_get_realtime] writes denotes exactly the reading: its
    seconds and nanoseconds add up to 100 ns for each tick since the Unix
    epoch; nothing is lost or rounded. *)
Theorem realtime_exact (ft : Clock.FILETIME) :
  epoch_ticks <= ticks_of ft ->
  nanoseconds (Clock.xpthread_get_realtime ft)
  = (ticks_of ft - epoch_ticks) * 100.
Proof.
  intros Hge. rewrite realtime_fields by exact Hge. unfold nanoseconds.
  cbn [Clock.tv_sec Clock.tv_nsec].
  pose proof (Z.div_mod (ticks_of ft - epoch_ticks) 10000000) as Hdm.
  lia.
Qed.

Lemma realtime_exact_witness :
  nanoseconds (Clock.xpthread_get_realtime
                 (Clock.filetime_of_unix 1800000000 1234567))
  = (ticks_of (Clock.filetime_of_unix 1800000000 1234567) - epoch_ticks) * 100.
Proof.
  apply (realtime_exact (Clock.filetime_of_unix 1800000000 1234567)).
  vm_compute. discriminate.
Defined.

(** X2.  The conversion keeps the order of clock readings: of two
    readings at or after 1970 the earlier one gives a [timespec] at or
    before that of the later one. *)
Theorem realtime_monotone (ft1 ft2 : Clock.FILETIME) :
  epoch_ticks <= ticks_of ft1 -> ticks_of ft1 <= ticks_of ft2 ->
  Clock.at_or_before (Clock.xpthread_get_realtime ft1)
                     (Clock.xpthread_get_realtime ft2).
Proof.
  intros H1 H12. rewrite !realtime_fields by lia.
  unfold Clock.at_or_before. cbn [Clock.tv_sec Clock.tv_nsec].
  set (a := ticks_of ft1 - epoch_ticks). set (b := ticks_of ft2 - epoch_ticks).
  assert (Hab : a <= b) by (unfold a, b; lia).
  pose proof (Z.div_mod a 10000000) as Ha.
  pose proof (Z.div_mod b 10000000) as Hb.
  pose proof (Z.mod_pos_bound a 10000000) as Hma.
  pose proof (Z.mod_pos_bound b 10000000) as Hmb.
  assert (Hd : a / 10000000 <= b / 10000000) by (apply Z.div_le_mono; lia).
  lia.
Qed.

Lemma realtime_monotone_witness :
  Clock.at_or_before
    (Clock.xpthread_get_realtime (Clock.filetime_of_unix 1800000000 9999999))
    (Clock.xpthread_get_realtime (Clock.filetime_of_unix 1800000001 0)).
Proof.
  apply (realtime_monotone (Clock.filetime_of_unix 1800000000 9999999)
                           (Clock.filetime_of_unix 1800000001 0)).
  - vm_compute. discriminate.
  - vm_compute. discriminate.
Defined.

(** X3.  The seconds are never negative.  A clock that reads a time
    before 1970 is not reported as such: the subtraction of line 265
    wraps in [uint64_t], and the seconds come out beyond 1833029933770,
    some 58000 years ahead. *)
Theorem realtime_before_epoch (ft : Clock.FILETIME) :
  0 <= Clock.tv_sec (Clock.xpthread_get_realtime ft) /\
  (ticks_of ft < epoch_ticks ->
   1833029933770 <= Clock.tv_sec (Clock.xpthread_get_realtime ft)).
Proof.
  split; [apply realtime_sec_range|].
  intros Hlt. unfold Clock.xpthread_get_realtime; cbn [Clock.tv_sec].
  rewrite QuadPart_ticks. pose proof (ticks_of_range ft) as Hr.
  change (2 ^ 64) with 18446744073709551616 in Hr. unfold epoch_ticks in *.
  set (q := ticks_of ft) in *.
  assert (Hw : to_uint64 (q - 116444736000000000)
               = q - 116444736000000000 + 18446744073709551616).
  { unfold to_uint64. change (2 ^ 64) with 18446744073709551616.
    symmetry. apply Z.mod_unique_pos with (q := -1); lia. }
  rewrite Hw.
  set (t := q - 116444736000000000 + 18446744073709551616).
  assert (Ht : 18330299337709551616 <= t < 18446744073709551616) by (unfold t; lia).
  assert (Hq : 1833029933770 <= t / 10000000 < 1844674407371).
  { split; [apply Z.div_le_lower_bound; lia | apply Z.div_lt_upper_bound; lia]. }
  rewrite to_int64_small by (change (2 ^ 63) with 9223372036854775808; lia).
  lia.
Qed.

Lemma realtime_before_epoch_witness :
  1833029933770 <= Clock.tv_sec
    (Clock.xpthread_get_realtime
       {| Clock.dwLowDateTime := 7; Clock.dwHighDateTime := 0 |}).
Proof.
  apply (proj2 (realtime_before_epoch
                  {| Clock.dwLowDateTime := 7; Clock.dwHighDateTime := 0 |})).
  vm_compute. reflexivity.
Defined.

(** ** Timed lock: the time left *)

Lemma total_ms64_floor (abstime now : Clock.timespec) :
  Clock.normalized abstime -> Clock.normalized now ->
  - 2147483648 < Clock.tv_sec abstime - Clock.tv_sec now < 2147483648 ->
  Mutex.total_ms64 abstime now
  = (nanoseconds abstime - nanoseconds now) / 1000000.
Proof.
  unfold Clock.normalized, Mutex.total_ms64, nanoseconds.
  destruct abstime as [s n], now as [s' n']; cbn [Clock.tv_sec Clock.tv_nsec].
  intros Hn Hn' Hd.
  rewrite (to_int64_small (s - s'))
    by (change (2 ^ 63) with 9223372036854775808; lia).
  rewrite (to_long_small (s - s'))
    by (change (2 ^ 31) with 2147483648; lia).
  rewrite (to_long_small (n - n'))
    by (change (2 ^ 31) with 2147483648; lia).
  destruct (Z.ltb_spec (n - n') 0) as [Hneg|Hpos].
  - rewrite (to_long_small (n - n' + 1000000000))
      by (change (2 ^ 31) with 2147483648; lia).
    rewrite (to_long_small (s - s' - 1))
      by (change (2 ^ 31) with 2147483648; lia).
    rewrite Z.quot_div_nonneg by lia.
    assert (Hq : 0 <= (n - n' + 1000000000) / 1000000 < 1000)
      by (split; [apply Z.div_pos; lia | apply Z.div_lt_upper_bound; lia]).
    rewrite (to_int64_small ((s - s' - 1) * 1000))
      by (change (2 ^ 63) with 9223372036854775808; lia).
    rewrite to_int64_small
      by (change (2 ^ 63) with 9223372036854775808; lia).
    replace (s * 1000000000 + n - (s' * 1000000000 + n'))
      with ((s - s' - 1) * 1000 * 1000000 + (n - n' + 1000000000)) by ring.
    rewrite Z.div_add_l by lia. reflexivity.
  - rewrite Z.quot_div_nonneg by lia.
    assert (Hq : 0 <= (n - n') / 1000000 < 1000)
      by (split; [apply Z.div_pos; lia | apply Z.div_lt_upper_bound; lia]).
    rewrite (to_int64_small ((s - s') * 1000))
      by (change (2 ^ 63) with 9223372036854775808; lia).
    rewrite to_int64_small
      by (change (2 ^ 63) with 9223372036854775808; lia).
    replace (s * 1000000000 + n - (s' * 1000000000 + n'))
      with ((s - s') * 1000 * 1000000 + (n - n')) by ring.
    rewrite Z.div_add_l by lia. reflexivity.
Qed.

(** X4.  For two points in time in normal form whose seconds differ by
    less than 2^31, lines 282-289 compute the whole milliseconds from [now]
    to [abstime], rounded down; before the deadline as well as after it. *)
Theorem total_ms64_exact (abstime now : Clock.timespec) :
  Clock.normalized abstime -> Clock.normalized now ->
  - 2147483648 < Clock.tv_sec abstime - Clock.tv_sec now < 2147483648 ->
  Mutex.total_ms64 abstime now
  = (nanoseconds abstime - nanoseconds now) / 1000000.
Proof. intros Hn Hn' Hd. apply total_ms64_floor; assumption. Qed.

Lemma total_ms64_exact_witness :
  Mutex.total_ms64 {| Clock.tv_sec := 1800000001; Clock.tv_nsec := 200000000 |}
                   {| Clock.tv_sec := 1800000000; Clock.tv_nsec := 700000000 |}
  = (nanoseconds {| Clock.tv_sec := 1800000001; Clock.tv_nsec := 200000000 |}
     - nanoseconds {| Clock.tv_sec := 1800000000; Clock.tv_nsec := 700000000 |})
    / 1000000.
Proof.
  apply (total_ms64_exact
           {| Clock.tv_sec := 1800000001; Clock.tv_nsec := 200000000 |}
           {| Clock.tv_sec := 1800000000; Clock.tv_nsec := 700000000 |}).
  - unfold Clock.normalized; simpl; lia.
  - unfold Clock.normalized; simpl; lia.
  - simpl; lia.
Defined.

(** X5.  A deadline that is still to come, but by less than a
    millisecond, is treated as passed: the call returns [ETIMEDOUT] at
    once and makes no attempt, even on a mutex that is free. *)
Theorem timedlock_submillisecond
    (self : Z) (mutex : Mutex.CRITICAL_SECTION) (abstime : Clock.timespec)
    (ft : Clock.FILETIME) (timeout_ms_decl : Z) (others : Mutex.environment) :
  Clock.normalized abstime ->
  0 < nanoseconds abstime - nanoseconds (Clock.xpthread_get_realtime ft)
    < 1000000 ->
  Mutex.xpthread_mutex_timedlock self mutex (Some abstime) ft
    timeout_ms_decl others
  = Some {| Mutex.tl_status := ETIMEDOUT; Mutex.tl_mutex := mutex;
            Mutex.tl_tries := 0; Mutex.tl_elapsed := 0 |}.
Proof.
  intros Hn Hd. unfold Mutex.xpthread_mutex_timedlock.
  pose proof (realtime_nsec_range ft) as Hnow.
  rewrite total_ms64_floor; [| exact Hn | exact Hnow |].
  - rewrite Z.div_small by lia. reflexivity.
  - unfold nanoseconds, Clock.normalized in *. lia.
Qed.

Lemma timedlock_submillisecond_witness :
  Mutex.xpthread_mutex_timedlock 1 Mutex.unlocked
    (Some {| Clock.tv_sec := 1800000000; Clock.tv_nsec := 999999 |})
    (Clock.filetime_of_unix 1800000000 0) 0 Mutex.idle
  = Some {| Mutex.tl_status := ETIMEDOUT; Mutex.tl_mutex := Mutex.unlocked;
            Mutex.tl_tries := 0; Mutex.tl_elapsed := 0 |}.
Proof.
  apply (timedlock_submillisecond 1 Mutex.unlocked
           {| Clock.tv_sec := 1800000000; Clock.tv_nsec := 999999 |}
           (Clock.filetime_of_unix 1800000000 0) 0 Mutex.idle).
  - unfold Clock.normalized; simpl; lia.
  - vm_compute. split; reflexivity.
Defined.

(** X6.  On a free mutex a deadline at least one millisecond ahead (and
    less than 2^31 seconds ahead) is met at the first attempt: the call
    returns [0] without sleeping, whatever the unassigned [timeout_ms]
    holds.  This is the timed lock of the test program. *)
Theorem timedlock_free_mutex
    (self : Z) (abstime : Clock.timespec) (ft : Clock.FILETIME)
    (timeout_ms_decl : Z) (others : Mutex.environment) :
  Clock.normalized abstime ->
  1000000 <= nanoseconds abstime - nanoseconds (Clock.xpthread_get_realtime ft) ->
  Clock.tv_sec abstime - Clock.tv_sec (Clock.xpthread_get_realtime ft)
    < 2147483648 ->
  Mutex.xpthread_mutex_timedlock self Mutex.unlocked (Some abstime) ft
    timeout_ms_decl others
  = Some {| Mutex.tl_status := 0; Mutex.tl_mutex := Mutex.held_by self;
            Mutex.tl_tries := 1; Mutex.tl_elapsed := 0 |}.
Proof.
  intros Hn Hd Hs. apply timedlock_future_free.
  pose proof (realtime_nsec_range ft) as Hnow.
  rewrite total_ms64_floor; [| exact Hn | exact Hnow |].
  - apply Z.div_str_pos. lia.
  - unfold nanoseconds, Clock.normalized in *. lia.
Qed.

Lemma timedlock_free_mutex_witness :
  Mutex.xpthread_mutex_timedlock 1 Mutex.unlocked
    (Some {| Clock.tv_sec := 1800000001; Clock.tv_nsec := 0 |})
    (Clock.filetime_of_unix 1800000000 0) 12345 Mutex.idle
  = Some {| Mutex.tl_status := 0; Mutex.tl_mutex := Mutex.held_by 1;
            Mutex.tl_tries := 1; Mutex.tl_elapsed := 0 |}.
Proof.
  apply (timedlock_free_mutex 1
           {| Clock.tv_sec := 1800000001; Clock.tv_nsec := 0 |}
           (Clock.filetime_of_unix 1800000000 0) 12345 Mutex.idle).
  - unfold Clock.normalized; simpl; lia.
  - vm_compute. discriminate.
  - vm_compute. reflexivity.
Defined.

(** ** Lock, try-lock and unlock *)

Lemma try_enter_cases self cs :
  (owned_by_other self cs /\
   Mutex.TryEnterCriticalSection self cs = (false, cs)) \/
  (~ owned_by_other self cs /\
   exists cs', Mutex.TryEnterCriticalSection self cs = (true, cs') /\
               Mutex.OwningThread cs' = Some self).
Proof.
  unfold owned_by_other, Mutex.TryEnterCriticalSection.
  destruct (Mutex.OwningThread cs) as [o|].
  - destruct (Z.eqb_spec o self) as [->|Hne].
    + right. split; [intros (o & Ho & Hne); congruence | eauto].
    + left. split; [eauto | reflexivity].
  - right. split; [intros (o & Ho & _); discriminate | eauto].
Qed.

Lemma trylock_busy self mutex :
  owned_by_other self mutex ->
  Mutex.xpthread_mutex_trylock self mutex = (EBUSY, mutex).
Proof.
  intros Ho. unfold Mutex.xpthread_mutex_trylock.
  destruct (try_enter_cases self mutex) as [(_ & ->)|(Hn & _)];
    [reflexivity | contradiction].
Qed.

(** X7.  [xpthread_mutex_trylock] returns [EBUSY] exactly when another
    thread owns the mutex, and then leaves the mutex as it was; in every
    other case it returns [0] and the caller owns the mutex.
    [xpthread_mutex_lock] is left waiting in exactly the same case, and
    otherwise returns [0] with the mutex that the try-lock would leave. *)
Theorem lock_and_trylock (self : Z) (mutex : Mutex.CRITICAL_SECTION) :
  ((Mutex.xpthread_mutex_trylock self mutex).1 = EBUSY
   <-> owned_by_other self mutex) /\
  (owned_by_other self mutex ->
   Mutex.xpthread_mutex_trylock self mutex = (EBUSY, mutex) /\
   Mutex.xpthread_mutex_lock self mutex = None) /\
  (~ owned_by_other self mutex ->
   exists mutex',
     Mutex.xpthread_mutex_trylock self mutex = (0, mutex') /\
     Mutex.xpthread_mutex_lock self mutex = Some (0, mutex') /\
     Mutex.OwningThread mutex' = Some self).
Proof.
  unfold Mutex.xpthread_mutex_trylock, Mutex.xpthread_mutex_lock,
    Mutex.EnterCriticalSection.
  destruct (try_enter_cases self mutex) as [(Ho & ->)|(Hn & m' & -> & Hown)];
    cbn.
  - repeat split; auto. intros Hnot. contradiction.
  - split; [split; [discriminate | intros H; contradiction]|].
    split; [intros H; contradiction|]. intros _. eauto.
Qed.

Lemma lock_and_trylock_witness :
  Mutex.xpthread_mutex_trylock 2 (Mutex.held_by 1) = (EBUSY, Mutex.held_by 1) /\
  Mutex.xpthread_mutex_lock 2 (Mutex.held_by 1) = None.
Proof.
  apply (proj1 (proj2 (lock_and_trylock 2 (Mutex.held_by 1)))).
  exists 1. split; [reflexivity | discriminate].
Defined.

Lemma lock_times_owner n self count :
  0 < count ->
  lock_times n self {| Mutex.OwningThread := Some self;
                       Mutex.RecursionCount := count |}
  = Some {| Mutex.OwningThread := Some self;
            Mutex.RecursionCount := count + Z.of_nat n |}.
Proof.
  revert count. induction n as [|n IH]; intros count Hc.
  - cbn [lock_times]. rewrite Z.add_0_r. reflexivity.
  - cbn [lock_times]. unfold Mutex.xpthread_mutex_lock,
      Mutex.EnterCriticalSection, Mutex.TryEnterCriticalSection.
    cbn [Mutex.OwningThread Mutex.RecursionCount]. rewrite Z.eqb_refl.
    rewrite IH by lia. do 2 f_equal. lia.
Qed.

Lemma unlock_times_owner n self count :
  Z.of_nat n < count ->
  unlock_times n {| Mutex.OwningThread := Some self;
                    Mutex.RecursionCount := count |}
  = {| Mutex.OwningThread := Some self;
       Mutex.RecursionCount := count - Z.of_nat n |}.
Proof.
  revert count. induction n as [|n IH]; intros count Hc.
  - cbn [unlock_times]. rewrite Z.sub_0_r. reflexivity.
  - cbn [unlock_times]. unfold Mutex.xpthread_mutex_unlock,
      Mutex.LeaveCriticalSection.
    cbn [Mutex.OwningThread Mutex.RecursionCount snd].
    destruct (Z.leb_spec (count - 1) 0) as [Hle|Hgt]; [lia|].
    rewrite IH by lia. f_equal. lia.
Qed.

(** X8.  The mutex is recursive.  A thread that locks a free mutex [n]
    times in a row is never left waiting; after fewer than [n] unlocks
    the mutex is still its own and refuses every other thread, and the
    [n]-th unlock sets it free. *)
Theorem lock_is_recursive (n k : nat) (self other : Z) :
  (0 < n)%nat -> (k < n)%nat -> other <> self ->
  exists held,
    lock_times n self Mutex.unlocked = Some held /\
    Mutex.OwningThread (unlock_times k held) = Some self /\
    (Mutex.xpthread_mutex_trylock other (unlock_times k held)).1 = EBUSY /\
    unlock_times n held = Mutex.unlocked.
Proof.
  intros Hn Hk Hne. destruct n as [|n]; [lia|].
  exists {| Mutex.OwningThread := Some self;
            Mutex.RecursionCount := 1 + Z.of_nat n |}.
  split; [|split; [|split]].
  - cbn [lock_times]. unfold Mutex.xpthread_mutex_lock,
      Mutex.EnterCriticalSection. cbn.
    apply (lock_times_owner n self 1). lia.
  - rewrite unlock_times_owner by lia. reflexivity.
  - rewrite unlock_times_owner by lia.
    rewrite trylock_busy; [reflexivity | exists self; auto].
  - replace (S n) with (n + 1)%nat by lia.
    assert (Hsplit : forall a b m,
               unlock_times (a + b) m = unlock_times b (unlock_times a m)).
    { induction a as [|a IHa]; intros b m; [reflexivity|].
      cbn [Nat.add unlock_times]. apply IHa. }
    rewrite Hsplit, unlock_times_owner by lia.
    cbn [unlock_times]. unfold Mutex.xpthread_mutex_unlock,
      Mutex.LeaveCriticalSection. cbn [Mutex.RecursionCount snd].
    destruct (Z.leb_spec (1 + Z.of_nat n - Z.of_nat n - 1) 0); [reflexivity|lia].
Qed.

Lemma lock_is_recursive_witness :
  exists held,
    lock_times 3 1 Mutex.unlocked = Some held /\
    Mutex.OwningThread (unlock_times 2 held) = Some 1 /\
    (Mutex.xpthread_mutex_trylock 2 (unlock_times 2 held)).1 = EBUSY /\
    unlock_times 3 held = Mutex.unlocked.
Proof.
  apply (lock_is_recursive 3 2 1 2); [lia | lia | discriminate].
Defined.

(** ** Timed lock: what a call leaves *)

Lemma poll_outcome fuel self others timeout_ms :
  forall elapsed tries mutex r,
  Mutex.poll fuel self others timeout_ms elapsed tries mutex = Some r ->
  (Mutex.tl_status r = 0 /\ Mutex.OwningThread (Mutex.tl_mutex r) = Some self) \/
  (Mutex.tl_status r = ETIMEDOUT /\ owned_by_other self (Mutex.tl_mutex r)).
Proof.
  induction fuel as [|fuel IH]; intros elapsed tries mutex r;
    cbn [Mutex.poll]; destruct (elapsed <? timeout_ms); try discriminate.
  - destruct (try_enter_cases self mutex) as [(Ho & ->)|(_ & m' & -> & Hown)];
      intros H; inversion H; subst r; cbn; auto.
  - destruct (try_enter_cases self mutex) as [(Ho & ->)|(_ & m' & -> & Hown)].
    + apply IH.
    + intros H; inversion H; subst r; cbn; auto.
  - destruct (try_enter_cases self mutex) as [(Ho & ->)|(_ & m' & -> & Hown)];
      intros H; inversion H; subst r; cbn; auto.
Qed.

Lemma poll_tries fuel self others timeout_ms :
  forall elapsed tries mutex r,
  Mutex.poll fuel self others timeout_ms elapsed tries mutex = Some r ->
  tries < Mutex.tl_tries r.
Proof.
  induction fuel as [|fuel IH]; intros elapsed tries mutex r;
    cbn [Mutex.poll]; destruct (elapsed <? timeout_ms); try discriminate;
    destruct (Mutex.TryEnterCriticalSection self mutex) as [[|] m1];
    try (intros H; inversion H; subst r; cbn; lia).
  intros H. apply IH in H. lia.
Qed.

(** X9.  Every call of [xpthread_mutex_timedlock] returns, and in one of
    three ways: with [0], after at least one attempt, and the caller owns
    the mutex; with [ETIMEDOUT] and no attempt made, the mutex untouched;
    or with [ETIMEDOUT] after an attempt that was refused, the mutex in
    the hands of another thread.  It never returns [ETIMEDOUT] having
    taken the mutex. *)
Theorem timedlock_outcome
    (self : Z) (mutex : Mutex.CRITICAL_SECTION) (abstime : option Clock.timespec)
    (ft : Clock.FILETIME) (timeout_ms_decl : Z) (others : Mutex.environment) :
  exists r,
    Mutex.xpthread_mutex_timedlock self mutex abstime ft timeout_ms_decl others
    = Some r /\
    ((Mutex.tl_status r = 0 /\ 0 < Mutex.tl_tries r /\
      Mutex.OwningThread (Mutex.tl_mutex r) = Some self) \/
     (Mutex.tl_status r = ETIMEDOUT /\ Mutex.tl_tries r = 0 /\
      Mutex.tl_mutex r = mutex /\ abstime <> None) \/
     (Mutex.tl_status r = ETIMEDOUT /\ 0 < Mutex.tl_tries r /\
      owned_by_other self (Mutex.tl_mutex r))).
Proof.
  destruct (timedlock_returns self mutex abstime ft timeout_ms_decl others)
    as (r & Hr).
  exists r. split; [exact Hr|].
  unfold Mutex.xpthread_mutex_timedlock in Hr.
  assert (Hpoll : forall fuel T,
             Mutex.poll fuel self others T 0 0 mutex = Some r ->
             (Mutex.tl_status r = 0 /\ 0 < Mutex.tl_tries r /\
              Mutex.OwningThread (Mutex.tl_mutex r) = Some self) \/
             (Mutex.tl_status r = ETIMEDOUT /\ Mutex.tl_tries r = 0 /\
              Mutex.tl_mutex r = mutex /\ abstime <> None) \/
             (Mutex.tl_status r = ETIMEDOUT /\ 0 < Mutex.tl_tries r /\
              owned_by_other self (Mutex.tl_mutex r))).
  { intros fuel T H. pose proof (poll_tries _ _ _ _ _ _ _ _ H) as Ht.
    apply poll_outcome in H. destruct H as [(H0 & Ho)|(H0 & Ho)]; auto 10. }
  destruct abstime as [abstime|].
  - destruct (_ <=? 0).
    + inversion Hr; subst r; cbn. right; left. repeat split; congruence.
    + eapply Hpoll, Hr.
  - eapply Hpoll, Hr.
Qed.

(** ** Timed lock: a mutex released while the call polls *)

Lemma poll_unlocked fuel self others timeout_ms elapsed tries :
  (Z.to_nat (timeout_ms - elapsed) <= fuel)%nat ->
  Mutex.poll fuel self others timeout_ms elapsed tries Mutex.unlocked
  = Some {| Mutex.tl_status := 0; Mutex.tl_mutex := Mutex.held_by self;
            Mutex.tl_tries := tries + 1; Mutex.tl_elapsed := elapsed |}.
Proof.
  intros Hf. destruct fuel as [|fuel]; cbn [Mutex.poll];
    destruct (Z.ltb_spec elapsed timeout_ms) as [Hlt|Hge]; try reflexivity; lia.
Qed.

Lemma poll_released fuel self owner k timeout_ms :
  owner <> self -> 0 <= k < timeout_ms -> timeout_ms < 4294967296 ->
  forall elapsed tries,
  0 <= elapsed <= k ->
  (Z.to_nat (timeout_ms - elapsed) <= fuel)%nat ->
  Mutex.poll fuel self (released_during k) timeout_ms elapsed tries
    (Mutex.held_by owner)
  = Some {| Mutex.tl_status := 0; Mutex.tl_mutex := Mutex.held_by self;
            Mutex.tl_tries := tries + (k - elapsed) + 2;
            Mutex.tl_elapsed := k + 1 |}.
Proof.
  intros Hne Hk Ht. induction fuel as [|fuel IH]; intros elapsed tries He Hf;
    cbn [Mutex.poll]; destruct (Z.ltb_spec elapsed timeout_ms) as [Hlt|Hge];
    try lia.
  rewrite (try_enter_other self owner (Mutex.held_by owner)) by auto.
  unfold Mutex.interval, Mutex.Sleep, released_during.
  rewrite dword_small by lia.
  destruct (Z.eqb_spec elapsed k) as [->|Hnk].
  - rewrite poll_unlocked by lia. do 2 f_equal. lia.
  - rewrite IH by lia. do 2 f_equal. lia.
Qed.

(** X10.  A call with a null [abstime] takes the mutex as soon as it is
    free.  When the thread that holds the mutex releases it during the
    sleep that follows the attempt number [k + 1], the attempt number
    [k + 2] succeeds: the call returns [0] after [k + 1] sleeps of one
    millisecond. *)
Theorem timedlock_null_abstime_released
    (self owner k : Z) (ft : Clock.FILETIME) (timeout_ms_decl : Z) :
  owner <> self -> 0 <= k < 4294967295 ->
  Mutex.xpthread_mutex_timedlock self (Mutex.held_by owner) None ft
    timeout_ms_decl (released_during k)
  = Some {| Mutex.tl_status := 0; Mutex.tl_mutex := Mutex.held_by self;
            Mutex.tl_tries := k + 2; Mutex.tl_elapsed := k + 1 |}.
Proof.
  intros Hne Hk. unfold Mutex.xpthread_mutex_timedlock. cbv zeta.
  rewrite (poll_released _ self owner k INFINITE);
    [do 2 f_equal; lia | exact Hne | unfold INFINITE; lia
     | unfold INFINITE; lia | lia | lia].
Qed.

Lemma timedlock_null_abstime_released_witness :
  Mutex.xpthread_mutex_timedlock 1 (Mutex.held_by 2) None
    (Clock.filetime_of_unix 1800000000 0) 0 (released_during 99)
  = Some {| Mutex.tl_status := 0; Mutex.tl_mutex := Mutex.held_by 1;
            Mutex.tl_tries := 99 + 2; Mutex.tl_elapsed := 99 + 1 |}.
Proof.
  apply (timedlock_null_abstime_released 1 2 99
           (Clock.filetime_of_unix 1800000000 0) 0); [discriminate | lia].
Defined.

(** ** Once-initializer: a sequence of calls *)

Lemma once_calls_completed inits calls :
  once_calls inits Once.INIT_ONCE_COMPLETED calls
  = (repeat 0 (length inits), Once.INIT_ONCE_COMPLETED, calls).
Proof.
  induction inits as [|f rest IH]; [reflexivity|].
  cbn [once_calls length repeat].
  change (Once.xpthread_once Once.INIT_ONCE_COMPLETED f calls)
    with (0, Once.INIT_ONCE_COMPLETED, calls).
  cbv beta iota. rewrite IH. reflexivity.
Qed.

Lemma once_calls_null n inits calls :
  once_calls (repeat 0 n ++ inits) Once.INIT_ONCE_STATIC_INIT calls
  = let '(statuses, control, calls') :=
      once_calls inits Once.INIT_ONCE_STATIC_INIT calls in
    (repeat (-1) n ++ statuses, control, calls').
Proof.
  induction n as [|n IH].
  - cbn [repeat app].
    destruct (once_calls inits Once.INIT_ONCE_STATIC_INIT calls) as [[? ?] ?].
    reflexivity.
  - cbn [repeat app once_calls].
    change (Once.xpthread_once Once.INIT_ONCE_STATIC_INIT 0 calls)
      with (-1, Once.INIT_ONCE_STATIC_INIT, calls).
    cbv beta iota. rewrite IH.
    destruct (once_calls inits Once.INIT_ONCE_STATIC_INIT calls) as [[? ?] ?].
    reflexivity.
Qed.

Lemma once_runs init_routine calls :
  init_routine <> 0 ->
  Once.xpthread_once Once.INIT_ONCE_STATIC_INIT init_routine calls
  = (0, Once.INIT_ONCE_COMPLETED, calls ++ [init_routine]).
Proof.
  intros Hne.
  unfold Once.xpthread_once, Once.InitOnceExecuteOnce, Once.once_wrapper.
  cbn [Once.fn]. destruct (Z.eqb_spec init_routine 0); [contradiction|reflexivity].
Qed.

(** X11.  In any sequence of calls on a fresh control, exactly one
    initializer runs, once: the first one that is not null.  The calls
    with a null initializer before it return [-1] and leave the control
    fresh; that call and every call after it return [0], whatever
    initializer they pass, and run nothing more. *)
Theorem once_sequence (n : nat) (init_routine : Z) (rest : list Z) :
  init_routine <> 0 ->
  once_calls (repeat 0 n ++ init_routine :: rest) Once.INIT_ONCE_STATIC_INIT []
  = (repeat (-1) n ++ repeat 0 (S (length rest)),
     Once.INIT_ONCE_COMPLETED, [init_routine]).
Proof.
  intros Hne. rewrite once_calls_null. cbn [once_calls].
  rewrite (once_runs init_routine [] Hne). cbv beta iota.
  rewrite once_calls_completed. reflexivity.
Qed.

Lemma once_sequence_witness :
  once_calls (repeat 0 2 ++ 256 :: [512; 0; 256]) Once.INIT_ONCE_STATIC_INIT []
  = (repeat (-1) 2 ++ repeat 0 (S (length [512; 0; 256])),
     Once.INIT_ONCE_COMPLETED, [256]).
Proof. apply (once_sequence 2 256 [512; 0; 256]). discriminate. Defined.

(** ** Thread creation *)

Lemma well_formed_boot : well_formed Thread.boot.
Proof.
  split; [reflexivity|]. split.
  - intros a _. apply lookup_empty.
  - intros h _. split; [apply lookup_empty | apply not_elem_of_empty].
Qed.

(** X12.  A creation that fails leaves nothing behind.  When the record
    cannot be allocated the call returns [ENOMEM] and the process is as it
    was; when the thread cannot be started it returns [EAGAIN], the record
    is freed again, no thread and no handle exist that did not before.  In
    both cases the cell behind [thread] is not written. *)
Theorem create_failure
    (p : Thread.process) (begin_ok : bool) (thread : option Z)
    (attr start_routine arg self : Z) :
  Thread.xpthread_create false begin_ok thread attr start_routine arg self p
    = Thread.Ret (ENOMEM, thread) p /\
  (well_formed p ->
   exists p',
     Thread.xpthread_create true false thread attr start_routine arg self p
       = Thread.Ret (EAGAIN, thread) p' /\
     Thread.heap p' = Thread.heap p /\
     Thread.threads p' = Thread.threads p /\
     Thread.open_handles p' = Thread.open_handles p /\
     well_formed p').
Proof.
  split; [reflexivity|].
  intros (Hpos & Hheap & Hthr).
  unfold Thread.xpthread_create, Thread.bind, Thread.calloc,
    Thread._beginthreadex, Thread.free, Thread.ret.
  destruct (Z.eqb_spec (Thread.next p) 0) as [H0|H0]; [lia|].
  cbn [Thread.heap Thread.with_next Thread.with_heap Thread.next].
  rewrite lookup_insert_eq. cbn.
  eexists. split; [reflexivity|]. cbn.
  split; [|split; [reflexivity|split; [reflexivity|]]].
  - rewrite insert_insert_eq, delete_insert_eq.
    apply delete_id, Hheap. lia.
  - split; [cbn; lia|]. split; cbn.
    + intros a Ha. rewrite insert_insert_eq, delete_insert_eq.
      rewrite lookup_delete_ne by lia. apply Hheap. lia.
    + intros h Hh. apply Hthr. lia.
Qed.

Lemma create_failure_witness :
  exists p',
    Thread.xpthread_create true false (Some 0) 0 256 0 Thread.main_thread
      Thread.boot = Thread.Ret (EAGAIN, Some 0) p' /\
    Thread.heap p' = Thread.heap Thread.boot /\
    Thread.threads p' = Thread.threads Thread.boot /\
    Thread.open_handles p' = Thread.open_handles Thread.boot /\
    well_formed p'.
Proof.
  apply (proj2 (create_failure Thread.boot false (Some 0) 0 256 0
                  Thread.main_thread)).
  apply well_formed_boot.
Defined.

Lemma create_success_handle p cell attr start_routine arg self :
  well_formed p ->
  exists p',
    Thread.xpthread_create true true (Some cell) attr start_routine arg self p
      = Thread.Ret (0, Some (Thread.next p + 1)) p' /\
    0 < Thread.next p.
Proof.
  intros (Hpos & Hheap & Hthr).
  unfold Thread.xpthread_create, Thread.bind, Thread.calloc,
    Thread._beginthreadex, Thread.ret.
  destruct (Z.eqb_spec (Thread.next p) 0) as [H0|H0]; [lia|].
  cbn [Thread.heap Thread.with_next Thread.with_heap Thread.next].
  rewrite lookup_insert_eq.
  cbn [Thread.with_heap Thread.with_next Thread.with_open_handles
       Thread.with_threads Thread.next Thread.heap Thread.threads
       Thread.open_handles Thread.cancel_requested Thread.retval].
  destruct (Z.eqb_spec (Thread.next p + 1) 0) as [H1|H1]; [lia|].
  eexists. split; [reflexivity | exact Hpos].
Qed.

(** X13.  A creation that succeeds returns [0] and writes a handle that
    is not null and was not in use.  The thread behind it has not ended;
    its record, at an address that held no record before, carries the
    entry function and the argument, a clear pending-request flag and an
    empty return-value slot.  Every other record and every other thread
    is as it was, and so is the thread-local state of the caller. *)
Theorem create_success
    (p : Thread.process) (cell attr start_routine arg self : Z) :
  well_formed p ->
  exists h ctx p',
    Thread.xpthread_create true true (Some cell) attr start_routine arg self p
      = Thread.Ret (0, Some h) p' /\
    h <> 0 /\ ctx <> 0 /\
    Thread.threads p !! h = None /\ Thread.heap p !! ctx = None /\
    h ∈ Thread.open_handles p' /\
    Thread.threads p' !! h
      = Some {| Thread.th_arg := ctx; Thread.th_exit_code := None |} /\
    Thread.heap p' !! ctx
      = Some {| Thread.start_routine := start_routine; Thread.arg := arg;
                Thread.cancel_requested := 0; Thread.retval := 0 |} /\
    (forall a, a <> ctx -> Thread.heap p' !! a = Thread.heap p !! a) /\
    (forall t, t <> h -> Thread.threads p' !! t = Thread.threads p !! t) /\
    Thread.xpthread_self_ctx p' = Thread.xpthread_self_ctx p /\
    well_formed p'.
Proof.
  intros (Hpos & Hheap & Hthr).
  unfold Thread.xpthread_create, Thread.bind, Thread.calloc,
    Thread._beginthreadex, Thread.ret.
  destruct (Z.eqb_spec (Thread.next p) 0) as [H0|H0]; [lia|].
  cbn [Thread.heap Thread.with_next Thread.with_heap Thread.next].
  rewrite lookup_insert_eq.
  cbn [Thread.with_heap Thread.with_next Thread.with_open_handles
       Thread.with_threads Thread.next Thread.heap Thread.threads
       Thread.open_handles Thread.cancel_requested Thread.retval].
  destruct (Z.eqb_spec (Thread.next p + 1) 0) as [H1|H1]; [lia|].
  exists (Thread.next p + 1), (Thread.next p). eexists.
  split; [reflexivity|]. cbn.
  split; [lia|]. split; [lia|].
  split; [apply Hthr; lia|]. split; [apply Hheap; lia|].
  split; [apply elem_of_union; left; apply elem_of_singleton; reflexivity|].
  split; [apply lookup_insert_eq|].
  split; [rewrite insert_insert_eq; apply lookup_insert_eq|].
  split; [intros a Ha; rewrite insert_insert_eq; apply lookup_insert_ne; auto|].
  split; [intros t Ht; apply lookup_insert_ne; auto|].
  split; [reflexivity|].
  unfold well_formed; cbn.
  split; [lia|]. split.
  - intros a Ha. rewrite insert_insert_eq, lookup_insert_ne by lia.
    apply Hheap. lia.
  - intros h Hh. rewrite lookup_insert_ne by lia.
    split; [apply Hthr; lia|].
    destruct (Hthr h) as [_ Hn]; [lia|].
    rewrite elem_of_union, elem_of_singleton. intros [Heq|Hin]; [lia|auto].
Qed.

Lemma create_success_witness :
  exists h ctx p',
    Thread.xpthread_create true true (Some 0) 0 256 7 Thread.main_thread
      Thread.boot = Thread.Ret (0, Some h) p' /\
    h <> 0 /\ ctx <> 0 /\
    Thread.threads Thread.boot !! h = None /\
    Thread.heap Thread.boot !! ctx = None /\
    h ∈ Thread.open_handles p' /\
    Thread.threads p' !! h
      = Some {| Thread.th_arg := ctx; Thread.th_exit_code := None |} /\
    Thread.heap p' !! ctx
      = Some {| Thread.start_routine := 256; Thread.arg := 7;
                Thread.cancel_requested := 0; Thread.retval := 0 |} /\
    (forall a, a <> ctx -> Thread.heap p' !! a = Thread.heap Thread.boot !! a) /\
    (forall t, t <> h -> Thread.threads p' !! t = Thread.threads Thread.boot !! t) /\
    Thread.xpthread_self_ctx p' = Thread.xpthread_self_ctx Thread.boot /\
    well_formed p'.
Proof.
  apply (create_success Thread.boot 0 0 256 7 Thread.main_thread).
  apply well_formed_boot.
Defined.

(** ** Join and detach *)

Lemma still_running_dec thread p :
  still_running thread p \/ ~ still_running thread p.
Proof.
  unfold still_running.
  destruct (decide (thread ∈ Thread.open_handles p)) as [Hin|Hnin];
    [|right; tauto].
  destruct (Thread.threads p !! thread) as [[a [code|]]|].
  - right. intros (_ & a' & H). discriminate.
  - left. eauto.
  - right. intros (_ & a' & H). discriminate.
Qed.

(** The whole of a join: it waits for ever on the pseudo-handle, and
    while the thread runs behind an open handle; otherwise it closes the
    handle and returns [0], unless the caller's own record is gone. *)
Lemma join_unfold thread retval self p :
  Thread.xpthread_join thread retval self p
  = if thread =? Thread.GetCurrentThread then Thread.Blocked
    else if decide (thread ∈ Thread.open_handles p)
    then match Thread.threads p !! thread with
         | Some {| Thread.th_exit_code := None |} => Thread.Blocked
         | _ => match joined_cell retval self p with
                | Some cell => Thread.Ret (0, cell) (close_handle thread p)
                | None => Thread.Fault
                end
         end
    else match joined_cell retval self p with
         | Some cell => Thread.Ret (0, cell) (close_handle thread p)
         | None => Thread.Fault
         end.
Proof.
  unfold Thread.xpthread_join, Thread.bind, Thread.WaitForSingleObject,
    Thread.GetExitCodeThread, Thread.CloseHandle, Thread.ret, close_handle,
    joined_cell.
  destruct (thread =? Thread.GetCurrentThread); [reflexivity|].
  destruct (decide (thread ∈ Thread.open_handles p)) as [Hin|Hnin] eqn:Hd;
    destruct (Thread.threads p !! thread) as [[a [code|]]|] eqn:Ht;
    cbv beta iota; rewrite ?Ht; cbv beta iota; try reflexivity;
    destruct retval as [old|]; cbv beta iota;
    try destruct (Thread.get_self_ctx self p =? 0); cbv beta iota;
    try destruct (Thread.heap p !! Thread.get_self_ctx self p);
    cbv beta iota; rewrite ?Hd; reflexivity.
Qed.

Lemma not_pseudo_handle thread :
  0 <= thread -> (thread =? Thread.GetCurrentThread) = false.
Proof. intros H. apply Z.eqb_neq. unfold Thread.GetCurrentThread. lia. Qed.

(** X14.  A join of the value that [xpthread_self] returns never
    comes back: the caller waits for itself.  A join of any value that is
    not a pseudo-handle (no negative value) is left waiting exactly when
    the handle is open and its thread has not ended.  No join ends the
    calling thread. *)
Theorem join_blocks_iff (thread : Z) (retval : option Z) (self : Z)
    (p : Thread.process) :
  Thread.xpthread_join Thread.GetCurrentThread retval self p = Thread.Blocked /\
  (0 <= thread ->
   (Thread.xpthread_join thread retval self p = Thread.Blocked
    <-> still_running thread p)) /\
  ~ ends_thread (Thread.xpthread_join thread retval self p).
Proof.
  split; [rewrite join_unfold; reflexivity|].
  rewrite join_unfold. unfold still_running, ends_thread.
  destruct (thread =? Thread.GetCurrentThread) eqn:Hps.
  { split; [|intros (? & ? & H); discriminate].
    intros Hpos. rewrite (not_pseudo_handle thread Hpos) in Hps. discriminate. }
  split; [intros _|].
  - destruct (decide (thread ∈ Thread.open_handles p)) as [Hin|Hnin].
    + destruct (Thread.threads p !! thread) as [[a [code|]]|].
      * destruct (joined_cell retval self p);
          (split; [discriminate | intros (_ & a' & H); discriminate]).
      * split; [eauto | reflexivity].
      * destruct (joined_cell retval self p);
          (split; [discriminate | intros (_ & a' & H); discriminate]).
    + destruct (joined_cell retval self p);
        (split; [discriminate | intros (Hin & _); contradiction]).
  - destruct (decide (thread ∈ Thread.open_handles p));
      [destruct (Thread.threads p !! thread) as [[a [code|]]|]|];
      try destruct (joined_cell retval self p);
      intros (? & ? & H); discriminate.
Qed.

Lemma join_blocks_iff_witness :
  Thread.xpthread_join 4097 (Some 0) Thread.main_thread after_create
    = Thread.Blocked
  <-> still_running 4097 after_create.
Proof.
  apply (proj1 (proj2 (join_blocks_iff 4097 (Some 0) Thread.main_thread
                         after_create))).
  lia.
Defined.

(** [main] joining itself through [xpthread_self], and [main] joining a
    thread that has been created and has not ended: both wait. *)
Example join_waits :
  Thread.xpthread_join Thread.GetCurrentThread (Some 5) Thread.main_thread
    Thread.boot = Thread.Blocked /\
  Thread.xpthread_join 4097 (Some 5) Thread.main_thread after_create
    = Thread.Blocked.
Proof. split; vm_compute; reflexivity. Qed.

Lemma close_handle_fields thread p :
  Thread.heap (close_handle thread p) = Thread.heap p /\
  Thread.threads (close_handle thread p) = Thread.threads p /\
  Thread.xpthread_self_ctx (close_handle thread p) = Thread.xpthread_self_ctx p /\
  Thread.cancel_state (close_handle thread p) = Thread.cancel_state p /\
  (thread ∉ Thread.open_handles (close_handle thread p)) /\
  (forall h, h <> thread ->
     (h ∈ Thread.open_handles (close_handle thread p)
      <-> h ∈ Thread.open_handles p)).
Proof.
  unfold close_handle.
  destruct (decide (thread ∈ Thread.open_handles p)) as [Hin|Hnin]; cbn.
  - repeat split; try reflexivity.
    + rewrite elem_of_difference, elem_of_singleton. tauto.
    + rewrite elem_of_difference. tauto.
    + intros Hh. rewrite elem_of_difference, elem_of_singleton. tauto.
  - repeat split; auto.
Qed.

(** X15.  A join that returns, returns [0], and all it changes in the
    process is the handle, which it closes.  The record that
    [xpthread_create] allocated for the thread stays allocated: no join
    frees it. *)
Theorem join_effect (thread : Z) (retval : option Z) (self : Z)
    (p p' : Thread.process) (status : Z) (cell : option Z) :
  Thread.xpthread_join thread retval self p = Thread.Ret (status, cell) p' ->
  status = 0 /\
  Thread.heap p' = Thread.heap p /\
  Thread.threads p' = Thread.threads p /\
  Thread.xpthread_self_ctx p' = Thread.xpthread_self_ctx p /\
  (thread ∉ Thread.open_handles p') /\
  (forall h, h <> thread ->
     (h ∈ Thread.open_handles p' <-> h ∈ Thread.open_handles p)).
Proof.
  rewrite join_unfold. intros H.
  assert (Hp : status = 0 /\ p' = close_handle thread p).
  { destruct (thread =? Thread.GetCurrentThread); [discriminate|].
    destruct (decide (thread ∈ Thread.open_handles p));
      [destruct (Thread.threads p !! thread) as [[a [code|]]|]|];
      try discriminate;
      destruct (joined_cell retval self p); try discriminate;
      inversion H; auto. }
  destruct Hp as [-> ->].
  destruct (close_handle_fields thread p) as (Hh & Ht & Hs & _ & Hc & Ho).
  auto 10.
Qed.


Lemma join_effect_witness :
  0 = 0 /\
  Thread.heap (close_handle 4097 after_return) = Thread.heap after_return /\
  Thread.threads (close_handle 4097 after_return) = Thread.threads after_return /\
  Thread.xpthread_self_ctx (close_handle 4097 after_return)
    = Thread.xpthread_self_ctx after_return /\
  (4097 ∉ Thread.open_handles (close_handle 4097 after_return)) /\
  (forall h, h <> 4097 ->
     (h ∈ Thread.open_handles (close_handle 4097 after_return)
      <-> h ∈ Thread.open_handles after_return)).
Proof.
  apply (join_effect 4097 (Some 0) Thread.main_thread after_return
           (close_handle 4097 after_return) 0 (Some 0)).
  vm_compute. reflexivity.
Defined.

(** The states of the test program agree with these processes. *)
Example after_create_is_created :
  Thread.xpthread_create true true (Some 0) 0 256 0 Thread.main_thread Thread.boot
  = Thread.Ret (0, Some 4097) after_create.
Proof. vm_compute. reflexivity. Qed.

Example after_return_is_run :
  Thread.run_thread (Scenario.returns 7) 4097 after_create = Some after_return.
Proof. vm_compute. reflexivity. Qed.




(** A thread that was detached before it ran is not waited for. *)
Example join_after_detach :
  exists p1,
    Thread.xpthread_detach 4097 Thread.main_thread after_create = Thread.Ret 0 p1 /\
    still_running 4097 after_create /\
    Thread.xpthread_join 4097 None Thread.main_thread p1 = Thread.Ret (0, None) p1.
Proof.
  eexists. split; [vm_compute; reflexivity|]. split.
  - split; [vm_compute; reflexivity|].
    exists 4096. vm_compute. reflexivity.
  - vm_compute. reflexivity.
Qed.

(** ** How a thread ends *)

(** X17.  A thread whose entry function returns [v] ends with exit code
    [0], whatever [v] is, and with [v] in the return-value slot of its own
    record; its [xpthread_self_ctx] points to that record, and no other
    record is touched. *)
Theorem thread_returns
    (text : Thread.image) (h ctx v : Z) (c : Thread.xpthread_win_ctx)
    (p : Thread.process) :
  Thread.threads p !! h
    = Some {| Thread.th_arg := ctx; Thread.th_exit_code := None |} ->
  Thread.heap p !! ctx = Some c ->
  (forall q, text (Thread.start_routine c) (Thread.arg c) h q = Thread.Ret v q) ->
  exists p',
    Thread.run_thread text h p = Some p' /\
    Thread.threads p' !! h
      = Some {| Thread.th_arg := ctx; Thread.th_exit_code := Some 0 |} /\
    Thread.heap p' !! ctx
      = Some {| Thread.start_routine := Thread.start_routine c;
                Thread.arg := Thread.arg c;
                Thread.cancel_requested := Thread.cancel_requested c;
                Thread.retval := v |} /\
    Thread.get_self_ctx h p' = ctx /\
    (forall a, a <> ctx -> Thread.heap p' !! a = Thread.heap p !! a).
Proof.
  intros Ht Hc Htext.
  unfold Thread.run_thread, Thread.thread_wrapper. rewrite Ht.
  cbn [Thread.heap Thread.with_self_ctx]. rewrite Hc, Htext.
  cbn [Thread.heap Thread.with_self_ctx]. rewrite Hc.
  unfold Thread._endthreadex. eexists. split; [reflexivity|]. cbn.
  split; [apply lookup_insert_eq|].
  split; [apply lookup_insert_eq|].
  split; [unfold Thread.get_self_ctx; cbn; rewrite lookup_insert_eq; reflexivity|].
  intros a Ha. apply lookup_insert_ne. auto.
Qed.

Lemma thread_returns_witness :
  exists p',
    Thread.run_thread (Scenario.returns 7) 4097 after_create = Some p' /\
    Thread.threads p' !! 4097
      = Some {| Thread.th_arg := 4096; Thread.th_exit_code := Some 0 |} /\
    Thread.heap p' !! 4096
      = Some {| Thread.start_routine := 256; Thread.arg := 0;
                Thread.cancel_requested := 0; Thread.retval := 7 |} /\
    Thread.get_self_ctx 4097 p' = 4096 /\
    (forall a, a <> 4096 -> Thread.heap p' !! a = Thread.heap after_create !! a).
Proof.
  apply (thread_returns (Scenario.returns 7) 4097 4096 7
           {| Thread.start_routine := 256; Thread.arg := 0;
              Thread.cancel_requested := 0; Thread.retval := 0 |}
           after_create).
  - vm_compute. reflexivity.
  - vm_compute. reflexivity.
  - intros q. reflexivity.
Defined.

(** X18.  A thread whose entry function calls [xpthread_exit(v)] ends
    with the exit code [v] cut to 32 bits, and no record is written: the
    return-value slot of its record stays as it was. *)
Theorem thread_exits
    (text : Thread.image) (h ctx v : Z) (c : Thread.xpthread_win_ctx)
    (p : Thread.process) :
  Thread.threads p !! h
    = Some {| Thread.th_arg := ctx; Thread.th_exit_code := None |} ->
  Thread.heap p !! ctx = Some c ->
  (forall q, text (Thread.start_routine c) (Thread.arg c) h q
             = Thread.bind (Thread.xpthread_exit v) (fun _ => Thread.ret 0) h q) ->
  exists p',
    Thread.run_thread text h p = Some p' /\
    Thread.threads p' !! h
      = Some {| Thread.th_arg := ctx; Thread.th_exit_code := Some (dword v) |} /\
    Thread.heap p' = Thread.heap p.
Proof.
  intros Ht Hc Htext.
  unfold Thread.run_thread, Thread.thread_wrapper. rewrite Ht.
  cbn [Thread.heap Thread.with_self_ctx]. rewrite Hc, Htext.
  unfold Thread.bind, Thread.xpthread_exit, Thread._endthreadex.
  eexists. split; [reflexivity|]. cbn.
  split; [|reflexivity].
  rewrite lookup_insert_eq. do 3 f_equal.
  destruct (Z.eqb_spec v 0) as [->|Hv]; reflexivity.
Qed.

Lemma thread_exits_witness :
  exists p',
    Thread.run_thread (Scenario.exits_with 4294967338) 4097 after_create = Some p' /\
    Thread.threads p' !! 4097
      = Some {| Thread.th_arg := 4096;
                Thread.th_exit_code := Some (dword 4294967338) |} /\
    Thread.heap p' = Thread.heap after_create.
Proof.
  apply (thread_exits (Scenario.exits_with 4294967338) 4097 4096 4294967338
           {| Thread.start_routine := 256; Thread.arg := 0;
              Thread.cancel_requested := 0; Thread.retval := 0 |}
           after_create).
  - vm_compute. reflexivity.
  - vm_compute. reflexivity.
  - intros q. reflexivity.
Defined.

(** The exit code of [xpthread_exit(2^32 + 42)] is that of
    [xpthread_exit(42)]. *)
Example exit_code_is_cut : dword 4294967338 = 42.
Proof. reflexivity. Qed.

(** ** Cancellation state and type *)

(** X19.  The cancellation state and the cancellation type are kept per
    thread and in two separate variables, and neither is checked against
    the values the header defines.  After a thread has set its state to
    [s] and its type to [t], and whatever another thread sets in between,
    its next [xpthread_setcancelstate] reports [s] and its next
    [xpthread_setcanceltype] reports [t]; every call returns [0]. *)
Theorem cancel_state_and_type
    (self other s t s' t' z : Z) (old : option Z) (p : Thread.process) :
  other <> self ->
  exists p1 p2 p3 p4 o1 o2 o3 o4,
    Thread.xpthread_setcancelstate s old self p = Thread.Ret (0, o1) p1 /\
    Thread.xpthread_setcanceltype t old self p1 = Thread.Ret (0, o2) p2 /\
    Thread.xpthread_setcancelstate s' old other p2 = Thread.Ret (0, o3) p3 /\
    Thread.xpthread_setcanceltype t' old other p3 = Thread.Ret (0, o4) p4 /\
    (exists p5, Thread.xpthread_setcancelstate z (Some z) self p4
                = Thread.Ret (0, Some s) p5) /\
    (exists p5, Thread.xpthread_setcanceltype z (Some z) self p4
                = Thread.Ret (0, Some t) p5) /\
    Thread.heap p4 = Thread.heap p.
Proof.
  intros Hne.
  unfold Thread.xpthread_setcancelstate, Thread.xpthread_setcanceltype.
  do 8 eexists.
  split; [reflexivity|]. split; [reflexivity|].
  split; [reflexivity|]. split; [reflexivity|].
  cbn [Thread.cancel_state Thread.cancel_type Thread.with_cancel_state
       Thread.with_cancel_type Thread.heap].
  split; [|split; [|reflexivity]]; eexists.
  - rewrite lookup_insert_ne, lookup_insert_eq by auto. reflexivity.
  - rewrite lookup_insert_ne, lookup_insert_eq by auto. reflexivity.
Qed.

Lemma cancel_state_and_type_witness :
  exists p1 p2 p3 p4 o1 o2 o3 o4,
    Thread.xpthread_setcancelstate 0 None 1 Thread.boot = Thread.Ret (0, o1) p1 /\
    Thread.xpthread_setcanceltype 5 None 1 p1 = Thread.Ret (0, o2) p2 /\
    Thread.xpthread_setcancelstate 1 None 2 p2 = Thread.Ret (0, o3) p3 /\
    Thread.xpthread_setcanceltype 6 None 2 p3 = Thread.Ret (0, o4) p4 /\
    (exists p5, Thread.xpthread_setcancelstate 9 (Some 9) 1 p4
                = Thread.Ret (0, Some 0) p5) /\
    (exists p5, Thread.xpthread_setcanceltype 9 (Some 9) 1 p4
                = Thread.Ret (0, Some 5) p5) /\
    Thread.heap p4 = Thread.heap Thread.boot.
Proof.
  apply (cancel_state_and_type 1 2 0 5 1 6 9 None Thread.boot). discriminate.
Defined.

(** Before a thread has set them, both report [XPTHREAD_CANCEL_ENABLE]. *)
Example cancel_state_initially :
  (exists p', Thread.xpthread_setcancelstate XPTHREAD_CANCEL_DISABLE (Some 0)
                Thread.main_thread Thread.boot
              = Thread.Ret (0, Some XPTHREAD_CANCEL_ENABLE) p') /\
  (exists p', Thread.xpthread_setcanceltype 0 (Some 0)
                Thread.main_thread Thread.boot
              = Thread.Ret (0, Some XPTHREAD_CANCEL_ENABLE) p').
Proof. split; eexists; reflexivity. Qed.

(** ** The pending-request flag *)

(** X20.  No function of the interface sets a pending-request flag.  In
    a process whose records all have the flag clear, each of the calls
    leaves all flags clear, and a thread whose code keeps them clear ends
    with all flags clear; in such a process [xpthread_testcancel] ends no
    thread.  The process at the start of [main] is such a process. *)
Theorem request_flag_stays_clear :
  no_request Thread.boot /\
  (forall calloc_ok begin_ok thread attr start_routine arg,
     keeps_no_request
       (Thread.xpthread_create calloc_ok begin_ok thread attr start_routine arg)) /\
  (forall thread retval, keeps_no_request (Thread.xpthread_join thread retval)) /\
  (forall thread, keeps_no_request (Thread.xpthread_detach thread)) /\
  (forall th, keeps_no_request (Thread.xpthread_cancel th)) /\
  (forall state oldstate,
     keeps_no_request (Thread.xpthread_setcancelstate state oldstate)) /\
  (forall type oldtype,
     keeps_no_request (Thread.xpthread_setcanceltype type oldtype)) /\
  keeps_no_request Thread.xpthread_testcancel /\
  (forall v, keeps_no_request (Thread.xpthread_exit v)) /\
  (forall text h p p',
     (forall f a, keeps_no_request (text f a)) ->
     no_request p -> Thread.run_thread text h p = Some p' -> no_request p') /\
  (forall self p,
     no_request p -> ~ ends_thread (Thread.xpthread_testcancel self p)).
Proof.
  split; [apply no_request_boot|].
  split; [intros; apply keeps_create|].
  split; [intros; apply keeps_join|].
  split; [intros; apply keeps_detach|].
  split; [intros; apply keeps_cancel|].
  split; [intros; apply keeps_setcancelstate|].
  split; [intros; apply keeps_setcanceltype|].
  split; [apply keeps_testcancel|].
  split; [intros; apply keeps_exit|].
  split; [|intros; apply testcancel_without_request; assumption].
  intros text h p p' Htext Hp Hrun.
  unfold Thread.run_thread in Hrun.
  destruct (Thread.threads p !! h) as [[a [code|]]|]; try discriminate.
  pose proof (keeps_thread_wrapper text a Htext h p Hp) as Hw.
  destruct (Thread.thread_wrapper text a h p) as [r q|code q| |];
    try discriminate.
  inversion Hrun; subst p'. exact Hw.
Qed.

Lemma request_flag_stays_clear_witness :
  no_request after_return.
Proof.
  apply (proj1 (proj2 (proj2 (proj2 (proj2 (proj2 (proj2 (proj2 (proj2
           (proj2 request_flag_stays_clear)))))))))
           (Scenario.returns 7) 4097 after_create after_return).
  - intros f a. unfold Scenario.returns.
    destruct (f =? Scenario.entry); apply keeps_ret.
  - apply (proj1 (proj2 request_flag_stays_clear) true true (Some 0) 0 256 0
             Thread.main_thread Thread.boot).
    apply (proj1 request_flag_stays_clear).
  - vm_compute. reflexivity.
Defined.

(** ** Thread identity *)

(** X21.  [xpthread_self] yields the same value in every thread, the
    pseudo-handle of the running thread.  So [xpthread_equal] holds of the
    values two different threads get from [xpthread_self], and it never
    holds between the value a thread gets from [xpthread_self] and the
    handle that [xpthread_create] returned for that thread. *)
Theorem self_is_a_pseudo_handle
    (p : Thread.process) (cell attr start_routine arg creator : Z)
    (h : Z) (p' : Thread.process) :
  well_formed p ->
  Thread.xpthread_create true true (Some cell) attr start_routine arg creator p
    = Thread.Ret (0, Some h) p' ->
  forall t1 t2 q1 q2, exists s,
    Thread.xpthread_self t1 q1 = Thread.Ret s q1 /\
    Thread.xpthread_self t2 q2 = Thread.Ret s q2 /\
    Thread.xpthread_equal s s = true /\
    Thread.xpthread_equal s h = false /\
    Thread.xpthread_equal h s = false.
Proof.
  intros Hwf Hc t1 t2 q1 q2.
  destruct (create_success_handle p cell attr start_routine arg creator Hwf)
    as (p'' & Hc' & Hpos).
  rewrite Hc' in Hc. inversion Hc; subst h.
  exists Thread.GetCurrentThread. unfold Thread.xpthread_self, Thread.ret,
    Thread.xpthread_equal, Thread.GetCurrentThread.
  repeat split; apply Z.eqb_neq; lia.
Qed.

Lemma self_is_a_pseudo_handle_witness :
  exists s,
    Thread.xpthread_self 1 Thread.boot = Thread.Ret s Thread.boot /\
    Thread.xpthread_self 4097 after_create = Thread.Ret s after_create /\
    Thread.xpthread_equal s s = true /\
    Thread.xpthread_equal s 4097 = false /\
    Thread.xpthread_equal 4097 s = false.
Proof.
  apply (self_is_a_pseudo_handle Thread.boot 0 0 256 0 Thread.main_thread
           4097 after_create well_formed_boot after_create_is_created
           1 4097 Thread.boot after_create).
Defined.

(** ** The test program *)

Lemma written_insert (ls : list Test.location) (i : nat) a b :
  ls !! i = Some a ->
  Test.written (<[i := b]> ls)
  = Test.written ls - (if Test.has_written a then 1 else 0)
    + (if Test.has_written b then 1 else 0).
Proof.
  revert i. induction ls as [|l rest IH]; intros i Hi; [discriminate|].
  destruct i as [|i].
  - inversion Hi; subst a.
    change (<[0%nat := b]> (l :: rest)) with (b :: rest).
    cbn [Test.written]. lia.
  - change (<[S i := b]> (l :: rest)) with (l :: <[i := b]> rest).
    change (rest !! i = Some a) in Hi.
    cbn [Test.written]. rewrite (IH i Hi). lia.
Qed.

Lemma written_range (ls : list Test.location) :
  0 <= Test.written ls <= Z.of_nat (length ls).
Proof.
  induction ls as [|l rest IH]; cbn [Test.written length]; [lia|].
  destruct (Test.has_written l); lia.
Qed.

Lemma written_below (ls : list Test.location) (i : nat) a :
  ls !! i = Some a -> Test.has_written a = false ->
  Test.written ls < Z.of_nat (length ls).
Proof.
  revert i. induction ls as [|l rest IH]; intros i Hi Ha; [discriminate|].
  cbn [Test.written length]. destruct i as [|i].
  - inversion Hi; subst a. rewrite Ha. pose proof (written_range rest). lia.
  - change (rest !! i = Some a) in Hi.
    specialize (IH i Hi Ha). destruct (Test.has_written l); lia.
Qed.

Lemma written_all_finished (ls : list Test.location) :
  (forall (i : nat) l, ls !! i = Some l -> l = Test.finished) ->
  Test.written ls = Z.of_nat (length ls).
Proof.
  induction ls as [|l rest IH]; intros Hall; [reflexivity|].
  cbn [Test.written length].
  rewrite (Hall 0%nat l eq_refl). cbn.
  rewrite IH; [lia|]. intros i l' Hi. apply (Hall (S i) l' Hi).
Qed.

Lemma tid_injective i j : Test.tid i = Test.tid j -> i = j.
Proof. unfold Test.tid. lia. Qed.

Lemma lock_refused i k :
  k <> i ->
  Mutex.xpthread_mutex_lock (Test.tid i) (Mutex.held_by (Test.tid k)) = None.
Proof.
  intros Hne. unfold Mutex.xpthread_mutex_lock, Mutex.EnterCriticalSection.
  rewrite (try_enter_other (Test.tid i) (Test.tid k)); [reflexivity..|].
  intros H. apply tid_injective in H. contradiction.
Qed.

(** The thread inside the critical section is the one that owns the
    mutex, and it is alone there. *)
Lemma holder s (i : nat) l :
  Test.invariant s -> Test.threads s !! i = Some l ->
  Test.in_critical_section l = true ->
  Test.mutex s = Mutex.held_by (Test.tid i) /\
  forall (j : nat) l', j <> i -> Test.threads s !! j = Some l' ->
                       Test.in_critical_section l' = false.
Proof.
  intros ([(Hm & Hnone)|(k & lk & Hk & Hin & Hm & Hothers)] & _) Hl Hcs.
  - rewrite (Hnone i l Hl) in Hcs. discriminate.
  - destruct (Nat.eq_dec i k) as [->|Hne]; [auto|].
    rewrite (Hothers i l Hne Hl) in Hcs. discriminate.
Qed.

Lemma start_invariant n : Test.invariant (Test.start n).
Proof.
  unfold Test.invariant, Test.start; cbn. split; [|split].
  - left. split; [reflexivity|]. intros i l Hl.
    apply lookup_replicate_1 in Hl. destruct Hl as [-> _]. reflexivity.
  - induction n as [|n IH]; cbn; [reflexivity|lia].
  - intros i old Hl. apply lookup_replicate_1 in Hl. destruct Hl as [Hl _].
    discriminate.
Qed.

Lemma step_invariant (i : nat) s s' :
  Z.of_nat (length (Test.threads s)) < 2147483648 ->
  Test.invariant s -> Test.step i s = Some s' ->
  Test.invariant s' /\ length (Test.threads s') = length (Test.threads s).
Proof.
  intros Hlen Hinv Hstep. unfold Test.step in Hstep.
  destruct (Test.threads s !! i) as [l|] eqn:Hl; [|discriminate].
  pose proof (lookup_lt_Some _ _ _ Hl) as Hi.
  destruct l as [| |old| |].
  - (* lock *)
    destruct Hinv as ([(Hm & Hnone)|(k & lk & Hk & Hin & Hm & Hothers)] & Hc & Hw).
    + rewrite Hm in Hstep. cbn in Hstep. inversion Hstep; subst s'; unfold Test.invariant;
      cbn [Test.mutex Test.counter Test.threads].
      split; [|apply length_insert]. split; [|split].
      * right. exists i, Test.at_read.
        split; [apply list_lookup_insert_eq; exact Hi|].
        split; [reflexivity|]. split; [reflexivity|].
        intros j l' Hj Hl'. rewrite list_lookup_insert_ne in Hl' by auto.
        eauto.
      * rewrite (written_insert _ _ _ _ Hl). cbn. lia.
      * intros j old Hj. destruct (Nat.eq_dec i j) as [->|Hne].
        -- rewrite list_lookup_insert_eq in Hj by exact Hi. discriminate.
        -- rewrite list_lookup_insert_ne in Hj by auto. eauto.
    + assert (Hki : k <> i).
      { intros ->. rewrite Hl in Hk. inversion Hk; subst lk. discriminate. }
      rewrite Hm, (lock_refused i k Hki) in Hstep. discriminate.
  - (* read *)
    destruct (holder s i _ Hinv Hl eq_refl) as (Hm & Hothers).
    destruct Hinv as (_ & Hc & Hw).
    inversion Hstep; subst s'; unfold Test.invariant;
      cbn [Test.mutex Test.counter Test.threads].
    split; [|apply length_insert]. split; [|split].
    + right. exists i, (Test.at_write (Test.counter s)).
      split; [apply list_lookup_insert_eq; exact Hi|].
      split; [reflexivity|]. split; [exact Hm|].
      intros j l' Hj Hl'. rewrite list_lookup_insert_ne in Hl' by auto. eauto.
    + rewrite (written_insert _ _ _ _ Hl). cbn. lia.
    + intros j old Hj. destruct (Nat.eq_dec i j) as [->|Hne].
      * rewrite list_lookup_insert_eq in Hj by exact Hi. congruence.
      * rewrite list_lookup_insert_ne in Hj by auto. eauto.
  - (* write *)
    destruct (holder s i _ Hinv Hl eq_refl) as (Hm & Hothers).
    destruct Hinv as (_ & Hc & Hw).
    pose proof (Hw i old Hl) as Hold.
    pose proof (written_below _ _ _ Hl eq_refl) as Hbelow.
    pose proof (written_range (Test.threads s)) as Hrange.
    inversion Hstep; subst s'; unfold Test.invariant;
      cbn [Test.mutex Test.counter Test.threads].
    split; [|apply length_insert]. split; [|split].
    + right. exists i, Test.at_unlock.
      split; [apply list_lookup_insert_eq; exact Hi|].
      split; [reflexivity|]. split; [exact Hm|].
      intros j l' Hj Hl'. rewrite list_lookup_insert_ne in Hl' by auto. eauto.
    + rewrite (written_insert _ _ _ _ Hl). cbn.
      rewrite to_long_small by (change (2 ^ 31) with 2147483648; lia). lia.
    + intros j old' Hj. destruct (Nat.eq_dec i j) as [->|Hne].
      * rewrite list_lookup_insert_eq in Hj by exact Hi. discriminate.
      * rewrite list_lookup_insert_ne in Hj by auto.
        pose proof (Hothers j _ (not_eq_sym Hne) Hj) as Hf. discriminate Hf.
  - (* unlock *)
    destruct (holder s i _ Hinv Hl eq_refl) as (Hm & Hothers).
    destruct Hinv as (_ & Hc & Hw).
    inversion Hstep; subst s'; unfold Test.invariant;
      cbn [Test.mutex Test.counter Test.threads].
    split; [|apply length_insert]. split; [|split].
    + left. split; [rewrite Hm; reflexivity|].
      intros j l' Hl'. destruct (Nat.eq_dec i j) as [->|Hne].
      * rewrite list_lookup_insert_eq in Hl' by exact Hi.
        inversion Hl'; reflexivity.
      * rewrite list_lookup_insert_ne in Hl' by auto. eauto.
    + rewrite (written_insert _ _ _ _ Hl). cbn. lia.
    + intros j old Hj. destruct (Nat.eq_dec i j) as [->|Hne].
      * rewrite list_lookup_insert_eq in Hj by exact Hi. discriminate.
      * rewrite list_lookup_insert_ne in Hj by auto. eauto.
  - discriminate.
Qed.

Lemma run_invariant schedule s :
  Z.of_nat (length (Test.threads s)) < 2147483648 ->
  Test.invariant s ->
  Test.invariant (Test.run schedule s) /\
  length (Test.threads (Test.run schedule s)) = length (Test.threads s).
Proof.
  revert s. induction schedule as [|i rest IH]; intros s Hlen Hinv; [auto|].
  cbn [Test.run]. destruct (Test.step i s) as [s'|] eqn:Hstep;
    cbn [default from_option id].
  - destruct (step_invariant i s s' Hlen Hinv Hstep) as (Hinv' & Hlen').
    destruct (IH s') as (H1 & H2); [rewrite Hlen'; exact Hlen | exact Hinv' |].
    split; [exact H1 | rewrite H2; exact Hlen'].
  - apply IH; assumption.
Qed.

Lemma reachable_invariant n schedule :
  Z.of_nat n < 2147483648 ->
  Test.invariant (Test.run schedule (Test.start n)) /\
  length (Test.threads (Test.run schedule (Test.start n))) = n.
Proof.
  intros Hn.
  destruct (run_invariant schedule (Test.start n)) as (H1 & H2).
  - cbn. rewrite length_replicate. exact Hn.
  - apply start_invariant.
  - split; [exact H1|]. rewrite H2. cbn. apply length_replicate.
Qed.

(** X22.  No update of the counter is lost.  However the steps of the
    [n] threads of the test program are interleaved, once all threads
    have finished the counter is [n]. *)
Theorem no_lost_update (n : nat) (schedule : list nat) :
  Z.of_nat n < 2147483648 ->
  Test.all_finished (Test.run schedule (Test.start n)) ->
  Test.counter (Test.run schedule (Test.start n)) = Z.of_nat n.
Proof.
  intros Hn Hall.
  destruct (reachable_invariant n schedule Hn) as ((_ & Hc & _) & Hlen).
  rewrite Hc, (written_all_finished _ Hall), Hlen. reflexivity.
Qed.

Lemma round_robin_finishes :
  Test.threads (Test.run round_robin (Test.start 4)) = replicate 4 Test.finished.
Proof. vm_compute. reflexivity. Qed.

Lemma no_lost_update_witness :
  Test.counter (Test.run round_robin (Test.start 4)) = Z.of_nat 4.
Proof.
  apply (no_lost_update 4 round_robin).
  - simpl. lia.
  - intros i l Hl. rewrite round_robin_finishes in Hl.
    apply lookup_replicate_1 in Hl. tauto.
Defined.

Lemma inside_none (ls : list Test.location) :
  (forall (i : nat) l, ls !! i = Some l -> Test.in_critical_section l = false) ->
  inside ls = 0.
Proof.
  induction ls as [|l rest IH]; intros Hnone; [reflexivity|].
  cbn [inside]. rewrite (Hnone 0%nat l eq_refl).
  rewrite IH; [reflexivity|]. intros i l' Hi. apply (Hnone (S i) l' Hi).
Qed.

Lemma inside_one (ls : list Test.location) (i : nat) l :
  ls !! i = Some l -> Test.in_critical_section l = true ->
  (forall (j : nat) l', j <> i -> ls !! j = Some l' ->
                        Test.in_critical_section l' = false) ->
  inside ls = 1.
Proof.
  revert i. induction ls as [|l0 rest IH]; intros i Hi Hin Hothers;
    [discriminate|].
  cbn [inside]. destruct i as [|i].
  - inversion Hi; subst l0. rewrite Hin.
    rewrite inside_none; [reflexivity|].
    intros j l' Hj. apply (Hothers (S j) l'); [lia | exact Hj].
  - change (rest !! i = Some l) in Hi.
    rewrite (Hothers 0%nat l0) by (lia || reflexivity).
    rewrite (IH i Hi Hin); [reflexivity|].
    intros j l' Hj Hl'. apply (Hothers (S j) l'); [lia | exact Hl'].
Qed.

(** X23.  The mutex keeps the threads of the test program apart.  In
    every state the program can reach, either no thread is between its
    lock and its unlock and the mutex is free, or exactly one thread is,
    and that thread owns the mutex. *)
Theorem mutual_exclusion (n : nat) (schedule : list nat) :
  Z.of_nat n < 2147483648 ->
  (inside (Test.threads (Test.run schedule (Test.start n))) = 0 /\
   Test.mutex (Test.run schedule (Test.start n)) = Mutex.unlocked)
  \/
  (inside (Test.threads (Test.run schedule (Test.start n))) = 1 /\
   exists (i : nat) l,
     Test.threads (Test.run schedule (Test.start n)) !! i = Some l /\
     Test.in_critical_section l = true /\
     Test.mutex (Test.run schedule (Test.start n)) = Mutex.held_by (Test.tid i)).
Proof.
  intros Hn.
  destruct (reachable_invariant n schedule Hn) as ((Hcs & _ & _) & _).
  destruct Hcs as [(Hm & Hnone)|(i & l & Hl & Hin & Hm & Hothers)].
  - left. split; [apply inside_none; exact Hnone | exact Hm].
  - right. split; [apply (inside_one _ i l); assumption|].
    exists i, l. auto.
Qed.

Lemma mutual_exclusion_witness :
  (inside (Test.threads (Test.run [0; 1; 0; 2]%nat (Test.start 4))) = 0 /\
   Test.mutex (Test.run [0; 1; 0; 2]%nat (Test.start 4)) = Mutex.unlocked)
  \/
  (inside (Test.threads (Test.run [0; 1; 0; 2]%nat (Test.start 4))) = 1 /\
   exists (i : nat) l,
     Test.threads (Test.run [0; 1; 0; 2]%nat (Test.start 4)) !! i = Some l /\
     Test.in_critical_section l = true /\
     Test.mutex (Test.run [0; 1; 0; 2]%nat (Test.start 4))
       = Mutex.held_by (Test.tid i)).
Proof. apply (mutual_exclusion 4 [0; 1; 0; 2]%nat). simpl. lia. Defined.

(** While thread 0 is inside, the turns of threads 1 and 2 pass. *)
Example contended_schedule :
  Test.run [0; 1; 0; 2]%nat (Test.start 4)
  = {| Test.mutex := Mutex.held_by (Test.tid 0); Test.counter := 0;
       Test.threads := [Test.at_write 0; Test.at_lock; Test.at_lock;
                        Test.at_lock] |}.
Proof. vm_compute. reflexivity. Qed.

Lemma remaining_insert (ls : list Test.location) (i : nat) a b :
  ls !! i = Some a ->
  remaining (<[i := b]> ls) = remaining ls - steps_left a + steps_left b.
Proof.
  revert i. induction ls as [|l rest IH]; intros i Hi; [discriminate|].
  destruct i as [|i].
  - inversion Hi; subst a.
    change (<[0%nat := b]> (l :: rest)) with (b :: rest).
    cbn [remaining]. lia.
  - change (<[S i := b]> (l :: rest)) with (l :: <[i := b]> rest).
    change (rest !! i = Some a) in Hi.
    cbn [remaining]. rewrite (IH i Hi). lia.
Qed.

Lemma remaining_nonneg (ls : list Test.location) : 0 <= remaining ls.
Proof.
  induction ls as [|l rest IH]; cbn [remaining]; [lia|].
  destruct l; cbn [steps_left]; lia.
Qed.

Lemma remaining_zero (ls : list Test.location) :
  remaining ls = 0 ->
  forall (i : nat) l, ls !! i = Some l -> l = Test.finished.
Proof.
  induction ls as [|l0 rest IH]; intros H0 i l Hi; [discriminate|].
  cbn [remaining] in H0. pose proof (remaining_nonneg rest) as Hr.
  destruct i as [|i].
  - inversion Hi; subst l0. destruct l; cbn [steps_left] in H0; try lia.
    reflexivity.
  - change (rest !! i = Some l) in Hi. apply (IH ltac:(destruct l0; cbn [steps_left] in H0; lia) i l Hi).
Qed.

Lemma remaining_positive (ls : list Test.location) :
  0 < remaining ls ->
  exists (i : nat) l, ls !! i = Some l /\ l <> Test.finished.
Proof.
  induction ls as [|l0 rest IH]; cbn [remaining]; intros Hpos; [lia|].
  destruct l0;
    try (exists 0%nat; eexists; split; [reflexivity | discriminate]).
  cbn [steps_left] in Hpos.
  destruct IH as (i & l & Hi & Hl); [lia|].
  exists (S i), l. split; [exact Hi | exact Hl].
Qed.

(** A state in which a thread has not finished is not stuck: some
    thread can take a step, and the step brings the end nearer. *)
Lemma progress s :
  Test.invariant s -> 0 < remaining (Test.threads s) ->
  exists i s', Test.step i s = Some s' /\
               remaining (Test.threads s') = remaining (Test.threads s) - 1.
Proof.
  intros Hinv Hpos.
  destruct (remaining_positive _ Hpos) as (u & lu & Hu & Hunf).
  destruct Hinv as ([(Hm & Hnone)|(i & l & Hl & Hin & Hm & Hothers)] & _ & _).
  - pose proof (Hnone u lu Hu) as Hout.
    destruct lu; try discriminate; [|contradiction].
    exists u. unfold Test.step. rewrite Hu, Hm. cbn.
    eexists. split; [reflexivity|]. cbn [Test.threads].
    rewrite (remaining_insert _ _ _ _ Hu). cbn [steps_left]. lia.
  - exists i. unfold Test.step. rewrite Hl.
    destruct l; try discriminate;
      (eexists; split; [reflexivity|]; cbn [Test.threads];
       rewrite (remaining_insert _ _ _ _ Hl); cbn [steps_left]; lia).
Qed.

Lemma can_finish_from (k : nat) :
  forall s,
  Z.of_nat (length (Test.threads s)) < 2147483648 ->
  Test.invariant s -> remaining (Test.threads s) = Z.of_nat k ->
  exists more, length more = k /\ Test.all_finished (Test.run more s).
Proof.
  induction k as [|k IH]; intros s Hlen Hinv Hk.
  - exists []. split; [reflexivity|]. intros i l Hi.
    apply (remaining_zero (Test.threads s) Hk i l Hi).
  - destruct (progress s Hinv) as (i & s' & Hstep & Hrem); [lia|].
    destruct (step_invariant i s s' Hlen Hinv Hstep) as (Hinv' & Hlen').
    destruct (IH s') as (more & Hmore & Hall);
      [rewrite Hlen'; exact Hlen | exact Hinv' | lia |].
    exists (i :: more). split; [cbn; lia|].
    cbn [Test.run]. rewrite Hstep. exact Hall.
Qed.

Lemma run_app a b s : Test.run (a ++ b) s = Test.run b (Test.run a s).
Proof. revert s. induction a as [|i a IH]; intros s; [reflexivity|apply IH]. Qed.

(** X24.  The test program cannot get stuck.  From every state it can
    reach there is a way on, of as many steps as the threads have left to
    take, after which all [n] threads have finished and the counter is
    [n]: no thread waits for the mutex forever. *)
Theorem can_always_finish (n : nat) (schedule : list nat) :
  Z.of_nat n < 2147483648 ->
  exists more,
    Z.of_nat (length more)
      = remaining (Test.threads (Test.run schedule (Test.start n))) /\
    Test.all_finished (Test.run (schedule ++ more) (Test.start n)) /\
    Test.counter (Test.run (schedule ++ more) (Test.start n)) = Z.of_nat n.
Proof.
  intros Hn.
  destruct (reachable_invariant n schedule Hn) as (Hinv & Hlen).
  set (s := Test.run schedule (Test.start n)) in *.
  pose proof (remaining_nonneg (Test.threads s)) as Hr.
  destruct (can_finish_from (Z.to_nat (remaining (Test.threads s))) s)
    as (more & Hmore & Hall); [rewrite Hlen; exact Hn | exact Hinv | lia |].
  exists more. split; [lia|].
  assert (Hall' : Test.all_finished (Test.run (schedule ++ more) (Test.start n)))
    by (rewrite run_app; exact Hall).
  split; [exact Hall'|].
  destruct (reachable_invariant n (schedule ++ more) Hn) as ((_ & Hc & _) & Hlen2).
  rewrite Hc, (written_all_finished _ Hall'), Hlen2. reflexivity.
Qed.

Lemma can_always_finish_witness :
  exists more,
    Z.of_nat (length more)
      = remaining (Test.threads (Test.run [0; 1; 0; 2]%nat (Test.start 4))) /\
    Test.all_finished (Test.run ([0; 1; 0; 2]%nat ++ more) (Test.start 4)) /\
    Test.counter (Test.run ([0; 1; 0; 2]%nat ++ more) (Test.start 4)) = Z.of_nat 4.
Proof. apply (can_always_finish 4 [0; 1; 0; 2]%nat). simpl. lia. Defined.
